(** * nutech-api: the wallet ledger of [src/index.js]

    A shallow embedding of the balance top-up, service payment and
    transaction-history handlers of the Express application, together
    with the invoice number generator, and the properties the
    specification states about them.

    Layout:
    - [JS]       the JavaScript primitives the handlers rely on
                 (truthiness, [isNaN], [parseInt], [padStart], ...);
    - [Invoice]  [generateInvoiceNumber];
    - [Store]    the PostgreSQL session reached through [pool.query];
    - [Api]      the route handlers as programs over store statements,
                 and their sequential interpreter;
    - [Sched]    interleaved execution of several requests;
    - the theorems. *)

From Stdlib Require Import ZArith QArith Qround List String Ascii Bool Lia.
From Stdlib Require Import DecimalString DecimalZ DecimalPos Sorted Permutation.
Import ListNotations.

Open Scope string_scope.
Open Scope Z_scope.

(* ================================================================== *)
(** * JavaScript primitives *)
(* ================================================================== *)

Module JS.

(** Values a JSON request body can hold for a field the handlers read
    as a number.  [JsNumber q] stands for the finite double whose
    decimal value is [q]; strings, arrays and objects are outside this
    model. *)
Inductive JsValue : Type :=
| JsUndefined
| JsNull
| JsBool (b : bool)
| JsNumber (q : Q).

(** Integer-valued JavaScript numbers, as [parseInt] and integer
    arithmetic produce them. *)
Inductive JsInt : Type :=
| NaN
| Int (z : Z).

(** [ToBoolean]. *)
Definition truthy (v : JsValue) : bool :=
  match v with
  | JsUndefined | JsNull => false
  | JsBool b => b
  | JsNumber q => negb (Qeq_bool q 0)
  end.

(** [ToNumber]; [None] is NaN. *)
Definition ToNumber (v : JsValue) : option Q :=
  match v with
  | JsUndefined => None
  | JsNull => Some 0%Q
  | JsBool true => Some 1%Q
  | JsBool false => Some 0%Q
  | JsNumber q => Some q
  end.

(** The global [isNaN(v)]. *)
Definition isNaN (v : JsValue) : bool :=
  match ToNumber v with
  | None => true
  | Some _ => false
  end.

(** [v <= 0]: a comparison with NaN is false. *)
Definition le_zero (v : JsValue) : bool :=
  match ToNumber v with
  | None => false
  | Some q => Qle_bool q 0
  end.

(** First decimal digit of a positive integer. *)
Fixpoint leading_digit (fuel : nat) (n : Z) : Z :=
  match fuel with
  | O => n
  | S fuel' => if n <? 10 then n else leading_digit fuel' (n / 10)
  end.

(** First significant digit of [a / b] when [0 < a < b]. *)
Fixpoint first_significant (fuel : nat) (a b : Z) : Z :=
  match fuel with
  | O => a / b
  | S fuel' => if b <=? a then a / b else first_significant fuel' (10 * a) b
  end.

(** [parseInt(x)] for a number [x].  The argument goes through
    [Number::toString] first: between 1e-6 and 1e21 that is plain
    decimal notation, of which [parseInt] keeps the integer part;
    outside that range the text is in exponent notation and [parseInt]
    stops after its first digit.  The digit is taken from the decimal
    value [q] (what the shortest round-trip text shows for literals of
    up to 15 significant digits). *)
Definition parseInt_number (q : Q) : JsInt :=
  let a := Z.abs (Qnum q) in
  let b := Z.pos (Qden q) in
  let sign := Z.sgn (Qnum q) in
  if a =? 0 then Int 0
  else if (a * 1000000 <? b) then
    Int (sign * first_significant (S (Z.to_nat (Z.log2 b))) a b)
  else if (a <? b * 10 ^ 21) then
    Int (Z.quot (Qnum q) b)
  else
    Int (sign * leading_digit (Z.to_nat (Z.log2 (a / b))) (a / b)).

(** [parseInt(v)] on the values of [JsValue]: only a number has a text
    that starts with a digit. *)
Definition parseInt_value (v : JsValue) : JsInt :=
  match v with
  | JsNumber q => parseInt_number q
  | _ => NaN
  end.

(** Binary [+] on numbers.  The sum is exact here; a double is exact
    up to 2^53, far beyond what the integer columns of the store
    accept. *)
Definition add (x y : JsInt) : JsInt :=
  match x, y with
  | Int a, Int b => Int (a + b)
  | _, _ => NaN
  end.

(** ** Strings *)

(** [StrWhiteSpaceChar], restricted to ASCII: tab, line feed, vertical
    tab, form feed, carriage return, space. *)
Definition is_space (c : ascii) : bool :=
  let n := N_of_ascii c in (((9 <=? n) && (n <=? 13)) || (n =? 32))%N.

Fixpoint trimStart (s : string) : string :=
  match s with
  | String c s' => if is_space c then trimStart s' else s
  | EmptyString => EmptyString
  end.

(** Value of a digit of radix 10 or 16, when it is one. *)
Definition digit_value (radix : Z) (c : ascii) : option Z :=
  let n := Z.of_N (N_of_ascii c) in
  let v :=
    if (48 <=? n) && (n <=? 57) then Some (n - 48)
    else if (97 <=? n) && (n <=? 122) then Some (n - 87)
    else if (65 <=? n) && (n <=? 90) then Some (n - 55)
    else None in
  match v with
  | Some d => if d <? radix then Some d else None
  | None => None
  end.

(** Longest prefix of radix digits, accumulated left to right; the
    flag tells whether a digit was seen. *)
Fixpoint parse_digits (radix : Z) (s : string) (seen : bool) (acc : Z)
  : bool * Z :=
  match s with
  | String c s' =>
      match digit_value radix c with
      | Some d => parse_digits radix s' true (acc * radix + d)
      | None => (seen, acc)
      end
  | EmptyString => (seen, acc)
  end.

(** [parseInt(s)] with no radix: leading white space is skipped, a
    sign is read, a [0x]/[0X] prefix selects radix 16, and the longest
    run of digits is converted; no digit at all gives NaN.  The result
    is the exact integer (a double is exact up to 2^53). *)
Definition parseInt (s : string) : JsInt :=
  let s1 := trimStart s in
  let '(sign, s2) :=
    match s1 with
    | String "-" r => (-1, r)
    | String "+" r => (1, r)
    | _ => (1, s1)
    end in
  let '(radix, s3) :=
    match s2 with
    | String "0" (String "x" r) => (16, r)
    | String "0" (String "X" r) => (16, r)
    | _ => (10, s2)
    end in
  match parse_digits radix s3 false 0 with
  | (true, n) => Int (sign * n)
  | (false, _) => NaN
  end.

(** [Number.prototype.toString()] of an integer. *)
Definition toString (z : Z) : string :=
  NilZero.string_of_int (Z.to_int z).

Fixpoint repeat_string (fill : string) (n : nat) : string :=
  match n with
  | O => EmptyString
  | S n' => fill ++ repeat_string fill n'
  end.

(** [String.prototype.padStart(targetLength, padString)]. *)
Definition padStart (targetLength : nat) (padString : string) (s : string)
  : string :=
  let len := String.length s in
  if (targetLength <=? len)%nat then s
  else if (String.length padString =? 0)%nat then s
  else
    let fillLen := (targetLength - len)%nat in
    substring 0 fillLen (repeat_string padString fillLen) ++ s.

Definition upper_char (c : ascii) : ascii :=
  let n := N_of_ascii c in
  if ((97 <=? n) && (n <=? 122))%N then ascii_of_N (n - 32) else c.

(** [String.prototype.toUpperCase()] on ASCII text. *)
Fixpoint toUpperCase (s : string) : string :=
  match s with
  | String c s' => String (upper_char c) (toUpperCase s')
  | EmptyString => EmptyString
  end.

Definition hex_digit (n : N) : ascii :=
  if (n <? 10)%N then ascii_of_N (48 + n) else ascii_of_N (87 + n).

(** [Buffer.prototype.toString("hex")]: two lower-case digits a byte. *)
Fixpoint buffer_hex (bytes : list Byte.byte) : string :=
  match bytes with
  | b :: rest =>
      let n := Byte.to_N b in
      String (hex_digit (n / 16)) (String (hex_digit (n mod 16)) (buffer_hex rest))
  | [] => EmptyString
  end.

End JS.

(* ================================================================== *)
(** * Invoice numbers *)
(* ================================================================== *)

Module Invoice.
Import JS.

(** What the getters of [new Date()] return. *)
Record Date : Type := mkDate {
  getFullYear : Z;
  getMonth : Z;
  getDate : Z;
  getHours : Z;
  getMinutes : Z;
  getSeconds : Z
}.

(** [generateInvoiceNumber()]; [now] is the value of [new Date()] and
    [randomBytes] the buffer [crypto.randomBytes(2)] returned. *)
Definition generateInvoiceNumber (now : Date) (randomBytes : list Byte.byte)
  : string :=
  let dd := padStart 2 "0" (toString (getDate now)) in
  let mm := padStart 2 "0" (toString (getMonth now + 1)) in
  let yyyy := toString (getFullYear now) in
  let hh := padStart 2 "0" (toString (getHours now)) in
  let min := padStart 2 "0" (toString (getMinutes now)) in
  let sec := padStart 2 "0" (toString (getSeconds now)) in
  let dateTimePart := yyyy ++ mm ++ dd ++ hh ++ min ++ sec in
  let randomPart := toUpperCase (buffer_hex randomBytes) in
  "INV" ++ dateTimePart ++ "-" ++ randomPart.

End Invoice.

(* ================================================================== *)
(** * The store behind [pool.query] *)
(* ================================================================== *)

Module Store.
Import JS.

(** ** Tables

    The schema is not part of the repository.  The tables and columns
    are those the statements of [src/index.js] name; the audit columns
    ([modified_by], [created_by], ...) always hold the same constants
    and are left out. *)

(** Modelled from the spec: the declaration of [tbl_balance] is missing;
    section 3 gives a balance identifier, the owning user and an integer
    value. *)
Record BalanceRow : Type := mkBalance {
  balance_id : Z;
  user_id : Z;
  balance_value : Z
}.

(** Modelled from the spec: the declaration of [tbl_service] is missing;
    section 3 gives a code, a name and a tariff. *)
Record ServiceRow : Type := mkService {
  service_code : string;
  service_name : string;
  service_tariff : Z
}.

Inductive TrxType : Type := TOPUP | PAYMENT.

(** Modelled from the spec: the declaration of [tbl_trx_history] is
    missing; the columns are those of the INSERT statements, integers
    where section 3 says so.  [trx_balance_id] is its [balance_id]
    column. *)
Record HistoryRow : Type := mkHistory {
  trx_balance_id : Z;
  invoice_number : string;
  amount : Z;
  balance_before : Z;
  balance_after : Z;
  trx_type : TrxType;
  description : string;
  created_date : Z
}.

(** The columns the history listing selects. *)
Record HistoryView : Type := mkView {
  view_invoice_number : string;
  transaction_type : TrxType;
  view_description : string;
  total_amount : Z;
  created_on : Z
}.

Record Db : Type := mkDb {
  tbl_user : list Z;
  tbl_balance : list BalanceRow;
  tbl_service : list ServiceRow;
  tbl_trx_history : list HistoryRow
}.

(** Modelled from the spec: the column types are missing; the integer
    columns of section 3 are taken as PostgreSQL [integer], which the
    driver hands to JavaScript as numbers.  This is its range. *)
Definition int4 (z : Z) : bool :=
  (-2147483648 <=? z) && (z <=? 2147483647).

(** A JavaScript number bound to an [integer] column: the server
    accepts it when its text is an integer in range, and refuses NaN,
    fractions and booleans.  (A NULL is refused as well; the handlers
    never send one.) *)
Definition integer_param (v : JsValue) : option Z :=
  match v with
  | JsNumber q =>
      if (Qnum q mod Z.pos (Qden q) =? 0) && int4 (Qnum q / Z.pos (Qden q))
      then Some (Qnum q / Z.pos (Qden q))
      else None
  | _ => None
  end.

(** The same for a number known to be an integer or NaN. *)
Definition integer_of_JsInt (v : JsInt) : option Z :=
  match v with
  | Int z => if int4 z then Some z else None
  | NaN => None
  end.

(** ** Sessions

    [pool.query] hands every statement of a request to the idle
    connection of the pool, so the statements of requests served one
    after another all run in one PostgreSQL session.  A session is
    either in autocommit mode, inside a transaction block whose
    changes are pending, or inside a block that a failed statement
    aborted. *)
Inductive TxState : Type :=
| Idle
| InTransaction (pending : Db)
| Aborted.

Record Session : Type := mkSession {
  committed : Db;
  tx : TxState;
  clock : Z
}.

(** The data a statement of the session sees. *)
Definition current (s : Session) : Db :=
  match tx s with
  | InTransaction w => w
  | _ => committed s
  end.

(** A write lands in the pending copy inside a block and is committed
    at once outside. *)
Definition put (s : Session) (d : Db) : Session :=
  match tx s with
  | InTransaction _ => mkSession (committed s) (InTransaction d) (clock s)
  | _ => mkSession d (tx s) (clock s)
  end.

(** A statement error aborts the enclosing block. *)
Definition abort (s : Session) : Session :=
  match tx s with
  | InTransaction _ => mkSession (committed s) Aborted (clock s)
  | _ => s
  end.

(** [COMMIT] or [ROLLBACK] of a block that holds nothing to commit. *)
Definition end_block (s : Session) : Session :=
  mkSession (committed s) Idle (clock s).

(** ** Statements, indexed by the rows they return *)

Inductive Stmt : Type -> Type :=
| Begin : Stmt unit
| Commit : Stmt unit
| Rollback : Stmt unit
  (* SELECT ... FROM tbl_balance WHERE user_id = $1 *)
| SelectBalance (userId : Z) : Stmt (list BalanceRow)
  (* INSERT INTO tbl_balance (user_id, balance_value, ...) VALUES ($1, 0, ...) *)
| InsertBalance (userId : Z) : Stmt unit
  (* UPDATE tbl_balance SET balance_value = $1 WHERE user_id = $2 RETURNING ... *)
| UpdateBalanceByUser (newBalance : JsInt) (userId : Z) : Stmt (list BalanceRow)
  (* UPDATE tbl_balance SET balance_value = $1 WHERE balance_id = $2 *)
| UpdateBalanceById (newBalance : JsInt) (balanceId : Z) : Stmt unit
  (* SELECT service_name, service_tariff FROM tbl_service WHERE service_code = $1 *)
| SelectService (code : string) : Stmt (list ServiceRow)
  (* INSERT INTO tbl_trx_history (...) VALUES ($1, ..., now()) RETURNING ... *)
| InsertHistory (balanceId : Z) (invNumber : string) (amt : JsValue)
    (before : Z) (after : JsInt) (type : TrxType) (descr : string)
  : Stmt (list HistoryRow)
  (* SELECT ... FROM tbl_trx_history JOIN ... WHERE usr.user_id = $1
     ORDER BY created_date DESC [LIMIT $2 OFFSET $3] *)
| SelectHistory (userId : Z) (page : option (JsInt * JsInt))
  : Stmt (list HistoryView).

(** The next value of the [balance_id] sequence. *)
Definition next_balance_id (rows : list BalanceRow) : Z :=
  1 + fold_right Z.max 0 (map balance_id rows).

Definition set_balance_value (v : Z) (b : BalanceRow) : BalanceRow :=
  mkBalance (balance_id b) (user_id b) v.

Definition with_balance (d : Db) (rows : list BalanceRow) : Db :=
  mkDb (tbl_user d) rows (tbl_service d) (tbl_trx_history d).

Definition with_history (d : Db) (rows : list HistoryRow) : Db :=
  mkDb (tbl_user d) (tbl_balance d) (tbl_service d) rows.

Definition view_of (h : HistoryRow) : HistoryView :=
  mkView (invoice_number h) (trx_type h) (description h) (amount h)
    (created_date h).

(** The join of the history listing: one row for every history row,
    balance row and user row that match. *)
Definition history_of_user (d : Db) (userId : Z) : list HistoryView :=
  flat_map (fun h =>
    flat_map (fun b =>
      if balance_id b =? trx_balance_id h then
        flat_map (fun u =>
          if (u =? user_id b) && (u =? userId) then [view_of h] else [])
          (tbl_user d)
      else [])
      (tbl_balance d))
    (tbl_trx_history d).

(** [ORDER BY created_date DESC].  Rows of equal date keep their
    order here; PostgreSQL leaves it open. *)
Fixpoint insert_desc (v : HistoryView) (l : list HistoryView)
  : list HistoryView :=
  match l with
  | [] => [v]
  | x :: rest =>
      if created_on x <=? created_on v then v :: l
      else x :: insert_desc v rest
  end.

Definition order_by_created_desc (l : list HistoryView) : list HistoryView :=
  fold_right insert_desc [] l.

Definition aborted_message : string :=
  "current transaction is aborted, commands ignored until end of transaction block".

(** A statement on a session that is not in an aborted block. *)
Definition run_stmt {R : Type} (s : Session) (q : Stmt R)
  : Session * (string + R) :=
  let d := current s in
  match q in Stmt T return Session * (string + T) with
  | Begin =>
      match tx s with
      | Idle => (mkSession (committed s) (InTransaction (committed s)) (clock s), inr tt)
      | _ => (s, inr tt)
      end
  | Commit =>
      match tx s with
      | InTransaction w => (mkSession w Idle (clock s), inr tt)
      | _ => (end_block s, inr tt)
      end
  | Rollback => (end_block s, inr tt)
  | SelectBalance userId =>
      (s, inr (filter (fun b => user_id b =? userId) (tbl_balance d)))
  | InsertBalance userId =>
      (put s (with_balance d
                (tbl_balance d ++
                   [mkBalance (next_balance_id (tbl_balance d)) userId 0])),
       inr tt)
  | UpdateBalanceByUser newBalance userId =>
      match integer_of_JsInt newBalance with
      | Some v =>
          let rows :=
            map (fun b => if user_id b =? userId then set_balance_value v b else b)
              (tbl_balance d) in
          (put s (with_balance d rows),
           inr (filter (fun b => user_id b =? userId) rows))
      | None => (abort s, inl "invalid input syntax for type integer")
      end
  | UpdateBalanceById newBalance balanceId =>
      match integer_of_JsInt newBalance with
      | Some v =>
          (put s (with_balance d
                    (map (fun b => if balance_id b =? balanceId
                                   then set_balance_value v b else b)
                       (tbl_balance d))),
           inr tt)
      | None => (abort s, inl "invalid input syntax for type integer")
      end
  | SelectService code =>
      (s, inr (filter (fun sv => String.eqb (service_code sv) code) (tbl_service d)))
  | InsertHistory balanceId invNumber amt before after type descr =>
      match integer_param amt, integer_of_JsInt after with
      | Some a, Some v =>
          if int4 before then
            let row := mkHistory balanceId invNumber a before v type descr (clock s) in
            (put s (with_history d (tbl_trx_history d ++ [row])), inr [row])
          else (abort s, inl "value out of range for type integer")
      | _, _ => (abort s, inl "invalid input syntax for type integer")
      end
  | SelectHistory userId page =>
      let rows := order_by_created_desc (history_of_user d userId) in
      match page with
      | None => (s, inr rows)
      | Some (Int limit, Int offset) =>
          if (0 <=? limit) && (0 <=? offset) then
            (s, inr (firstn (Z.to_nat limit) (skipn (Z.to_nat offset) rows)))
          else (abort s, inl "LIMIT and OFFSET must not be negative")
      | Some _ => (abort s, inl "invalid input syntax for type bigint")
      end
  end.

Definition ends_block {R : Type} (q : Stmt R) : bool :=
  match q with
  | Commit | Rollback => true
  | _ => false
  end.

(** One [pool.query].  [fault] says that the server reports an error
    for this statement whatever its text (a constraint of the schema,
    a resource limit); a failed [COMMIT] or [ROLLBACK] ends the block,
    any other failure inside a block aborts it.  In an aborted block
    only [COMMIT] and [ROLLBACK] are obeyed (both roll back). *)
Definition exec {R : Type} (s : Session) (fault : bool) (q : Stmt R)
  : Session * (string + R) :=
  if fault then
    ((if ends_block q then end_block s else abort s), inl "store failure")
  else
    match tx s with
    | Aborted =>
        match q in Stmt T return Session * (string + T) with
        | Commit => (end_block s, inr tt)
        | Rollback => (end_block s, inr tt)
        | _ => (s, inl aborted_message)
        end
    | _ => run_stmt s q
    end.

End Store.

(* ================================================================== *)
(** * The route handlers *)
(* ================================================================== *)

Module Api.
Import JS Store Invoice.

(** ** Responses: [res.status(code).json({...})] *)

Inductive StatusField : Type :=
| StatusAbsent
| StatusNum (n : Z)
| StatusStr (s : string).

Inductive Data : Type :=
| DataAbsent
| DataEmpty
| DataBalance (balance : JsInt)
| DataPayment (invoice_number service_code service_name transaction_type : string)
    (total_amount : Z) (created_on : Z)
| DataHistory (rows : list HistoryView).

Record Response : Type := mkResponse {
  http_status : Z;
  status : StatusField;
  message : option string;
  error : option string;
  data : Data
}.

(** ** Handlers as programs

    An [async] handler runs between two [await pool.query(...)] without
    interruption; it is a tree whose nodes are the statements it awaits
    and whose leaves are the response it sends or the exception it
    throws. *)
Inductive Prog : Type :=
| Ret (r : Response)
| Throw (msg : string)
| Query {R : Type} (q : Stmt R) (k : R -> Prog).

(** A handler: the body of its [try] and its [catch]. *)
Record Handler : Type := mkHandler {
  body : Prog;
  on_error : string -> Response
}.

Definition catch_status_100 (msg : string) : Response :=
  mkResponse 500 (StatusNum 100) (Some msg) None DataAbsent.

Definition catch_error (msg : string) : Response :=
  mkResponse 500 StatusAbsent None (Some msg) DataAbsent.

Definition undefined_property (name : string) : string :=
  "Cannot read properties of undefined (reading '" ++ name ++ "')".

(** [GET /balance]. *)
Definition get_balance (userId : Z) : Handler :=
  mkHandler
    (Query (SelectBalance userId) (fun balanceResult =>
       match balanceResult with
       | [] =>
           Ret (mkResponse 200 (StatusNum 0) (Some "Get Balance Berhasil") None
                  (DataBalance (Int 0)))
       | balance :: _ =>
           Ret (mkResponse 200 (StatusNum 0) (Some "Get Balance Berhasil") None
                  (DataBalance (Int (balance_value balance))))
       end))
    catch_status_100.

Definition invalid_amount : Response :=
  mkResponse 400 (StatusStr "102")
    (Some "Paramter amount hanya boleh angka dan tidak boleh lebih kecil dari 0")
    None DataAbsent.

(** [POST /topup]; [now] and [randomBytes] are what the invoice
    generator reads when it is called. *)
Definition topup (userId : Z) (top_up_amount : JsValue)
    (now : Date) (randomBytes : list Byte.byte) : Handler :=
  mkHandler
    (if negb (truthy top_up_amount) || isNaN top_up_amount || le_zero top_up_amount
     then Ret invalid_amount
     else
       Query (SelectBalance userId) (fun userResult =>
         let continue (currentBalance : Z) : Prog :=
           let newBalance :=
             add (parseInt_number (inject_Z currentBalance))
                 (parseInt_value top_up_amount) in
           Query Begin (fun _ =>
           Query (UpdateBalanceByUser newBalance userId) (fun updateResult =>
             let invNumber := generateInvoiceNumber now randomBytes in
             match updateResult with
             | [] => Throw (undefined_property "balance_id")
             | row :: _ =>
                 let balanceId := balance_id row in
                 Query (InsertHistory balanceId invNumber top_up_amount
                          currentBalance newBalance TOPUP "Top Up Balance")
                   (fun _ =>
                 Query Commit (fun _ =>
                 Ret (mkResponse 200 (StatusNum 0) (Some "Topup berhasil") None
                        (DataBalance newBalance))))
             end)) in
         match userResult with
         | row :: _ => continue (balance_value row)
         | [] => Query (InsertBalance userId) (fun _ => continue 0)
         end))
    catch_status_100.

Definition missing_parameter : Response :=
  mkResponse 400 (StatusNum 201) (Some "Ada parameter yang kurang") None DataEmpty.

Definition no_balance : Response :=
  mkResponse 404 (StatusNum 206) (Some "Belum ada saldo") None DataAbsent.

Definition service_not_found : Response :=
  mkResponse 404 (StatusNum 207) (Some "Service tidak terdaftar") None DataAbsent.

Definition insufficient_funds : Response :=
  mkResponse 400 (StatusNum 208) (Some "Saldo tidak cukup") None DataAbsent.

(** [POST /transaction]; [service_code] is [None] when the body has no
    such field. *)
Definition transaction (userId : Z) (service_code : option string)
    (now : Date) (randomBytes : list Byte.byte) : Handler :=
  mkHandler
    (match service_code with
     | None => Ret missing_parameter
     | Some code =>
       if (String.length code =? 0)%nat then Ret missing_parameter
       else
         Query (SelectBalance userId) (fun balanceRes =>
           match balanceRes with
           | [] => Ret no_balance
           | balance :: _ =>
             let balance_id := Store.balance_id balance in
             let balance_value := Store.balance_value balance in
             Query (SelectService code) (fun serviceRes =>
               match serviceRes with
               | [] => Ret service_not_found
               | service :: _ =>
                 let service_name := Store.service_name service in
                 let service_tariff := Store.service_tariff service in
                 if balance_value <? service_tariff then Ret insufficient_funds
                 else
                   Query Begin (fun _ =>
                   let newBalance := balance_value - service_tariff in
                   Query (UpdateBalanceById (Int newBalance) balance_id) (fun _ =>
                   let invNumber := generateInvoiceNumber now randomBytes in
                   Query (InsertHistory balance_id invNumber
                            (JsNumber (inject_Z service_tariff)) balance_value
                            (Int newBalance) PAYMENT service_name) (fun trx =>
                   Query Commit (fun _ =>
                     match trx with
                     | [] => Throw (undefined_property "created_date")
                     | row :: _ =>
                         Ret (mkResponse 200 StatusAbsent (Some "Transaksi berhasil")
                                None
                                (DataPayment invNumber code service_name "PAYMENT"
                                   service_tariff (created_date row)))
                     end))))
               end)
           end)
     end)
    catch_error.

Definition no_transactions : Response :=
  mkResponse 404 (StatusNum 208) (Some "Belum ada transaksi") None DataAbsent.

(** [req.query.x ? parseInt(req.query.x) : null]; the query parameter
    is [None] when the URL does not carry it. *)
Definition optional_int (param : option string) : option JsInt :=
  match param with
  | Some text => if (String.length text =? 0)%nat then None else Some (parseInt text)
  | None => None
  end.

(** [GET /transaction/history]. *)
Definition history (userId : Z) (query_limit query_offset : option string)
  : Handler :=
  mkHandler
    (let offset := optional_int query_offset in
     let limit := optional_int query_limit in
     let page :=
       match limit, offset with
       | Some l, Some o => Some (l, o)
       | _, _ => None
       end in
     Query (SelectHistory userId page) (fun result =>
       match result with
       | [] => Ret no_transactions
       | _ :: _ =>
           Ret (mkResponse 200 (StatusNum 0) (Some "Get History berhasil") None
                  (DataHistory result))
       end))
    catch_status_100.

(** ** Sequential execution *)

(** A statement as it appears in the trace of a request. *)
Inductive Issued : Type :=
| issued {R : Type} (q : Stmt R).

Record Outcome : Type := mkOutcome {
  session : Session;
  response : Response;
  trace : list Issued
}.

(** Runs a program to its response against the session.  [faults]
    tells, statement by statement, whether the server fails it (none
    once the list is used up).  An error of a statement or a thrown
    exception ends in the [catch] of the handler. *)
Fixpoint run (p : Prog) (catch : string -> Response) (faults : list bool)
    (s : Session) : Outcome :=
  match p with
  | Ret r => mkOutcome s r []
  | Throw msg => mkOutcome s (catch msg) []
  | Query q k =>
      match exec s (hd false faults) q with
      | (s', inl err) => mkOutcome s' (catch err) [issued q]
      | (s', inr rows) =>
          let o := run (k rows) catch (tl faults) s' in
          mkOutcome (session o) (response o) (issued q :: trace o)
      end
  end.

Definition serve (h : Handler) (faults : list bool) (s : Session) : Outcome :=
  run (body h) (on_error h) faults s.

End Api.

(* ================================================================== *)
(** * Requests in flight together *)
(* ================================================================== *)

Module Sched.
Import JS Store Api.

(** Node runs one handler at a time and switches between requests
    where they await a statement.  A task is a handler whose [body] is
    what remains of it; a schedule names, turn by turn, the task whose
    pending statement the store answers next (each statement is
    answered before the next one is sent, so each finds the same idle
    connection). *)

(** An exception thrown while resuming a handler is caught at once. *)
Definition settle (p : Prog) (catch : string -> Response) : Handler :=
  match p with
  | Throw msg => mkHandler (Ret (catch msg)) catch
  | _ => mkHandler p catch
  end.

Definition step (s : Session) (t : Handler) : Session * Handler :=
  match body t with
  | Ret _ => (s, t)
  | Throw msg => (s, settle (body t) (on_error t))
  | Query q k =>
      match exec s false q with
      | (s', inl err) => (s', mkHandler (Ret (on_error t err)) (on_error t))
      | (s', inr rows) => (s', settle (k rows) (on_error t))
      end
  end.

Fixpoint replace_nth (i : nat) (t : Handler) (tasks : list Handler)
  : list Handler :=
  match tasks, i with
  | [], _ => []
  | _ :: rest, O => t :: rest
  | x :: rest, S i' => x :: replace_nth i' t rest
  end.

Fixpoint interleave (schedule : list nat) (s : Session) (tasks : list Handler)
  : Session * list Handler :=
  match schedule with
  | [] => (s, tasks)
  | i :: later =>
      match nth_error tasks i with
      | Some t =>
          let '(s', t') := step s t in
          interleave later s' (replace_nth i t' tasks)
      | None => interleave later s tasks
      end
  end.

(** The response of a finished task. *)
Definition finished (t : Handler) : option Response :=
  match body t with
  | Ret r => Some r
  | _ => None
  end.

End Sched.

(* ================================================================== *)
(** * Vocabulary of the statements below *)
(* ================================================================== *)

Import JS Store Invoice Api.

(** ** Invoice numbers *)

(** Reading of a decimal numeral. *)
Definition decimal (s : string) : option Z :=
  option_map Z.of_int (NilZero.int_of_string s).

Definition decimal_char (c : ascii) : bool :=
  let n := N_of_ascii c in ((48 <=? n) && (n <=? 57))%N.

Definition upper_hex_char (c : ascii) : bool :=
  let n := N_of_ascii c in
  (((48 <=? n) && (n <=? 57)) || ((65 <=? n) && (n <=? 70)))%N.

Fixpoint all_chars (p : ascii -> bool) (s : string) : bool :=
  match s with
  | String c s' => p c && all_chars p s'
  | EmptyString => true
  end.

(** [s] is the numeral of [v] written with exactly [n] decimal digits. *)
Definition digits_of (n : nat) (s : string) (v : Z) : Prop :=
  String.length s = n /\ all_chars decimal_char s = true /\ decimal s = Some v.

Definition digits_ok (render : Z -> string) (n : nat) (v : Z) : bool :=
  let s := render v in
  (String.length s =? n)%nat && all_chars decimal_char s &&
  match decimal s with
  | Some w => w =? v
  | None => false
  end.

(** The ranges of the getters of a [Date] other than the year. *)
Definition calendar (d : Date) : Prop :=
  0 <= getMonth d <= 11 /\ 1 <= getDate d <= 31 /\ 0 <= getHours d <= 23 /\
  0 <= getMinutes d <= 59 /\ 0 <= getSeconds d <= 59.

Definition byte_value (b : Byte.byte) : Z := Z.of_N (Byte.to_N b).

(** ** Reading the tables *)

(** The row [rows[0]] of a [SELECT ... WHERE user_id = $1]. *)
Definition balance_of (d : Db) (userId : Z) : option BalanceRow :=
  find (fun b => user_id b =? userId) (tbl_balance d).

(** The row [rows[0]] of a [SELECT ... WHERE service_code = $1]. *)
Definition service_of (d : Db) (code : string) : option ServiceRow :=
  find (fun sv => String.eqb (service_code sv) code) (tbl_service d).

(** [balance_id] is the key of [tbl_balance]. *)
Definition balance_key (d : Db) : Prop := NoDup (map balance_id (tbl_balance d)).

(** The server fails none of the first [n] statements of a request. *)
Definition no_fault (n : nat) (faults : list bool) : Prop :=
  forallb negb (firstn n faults) = true.

(** No transaction block is open on the session. *)
Definition settled (s : Session) : Prop := tx s = Idle \/ tx s = Aborted.

(** Nothing committed changed, and no block is left open. *)
Definition unchanged (s s' : Session) : Prop :=
  committed s' = committed s /\ clock s' = clock s /\ settled s'.

Definition is_begin (i : Issued) : bool :=
  match i with
  | issued q => match q with Begin => true | _ => false end
  end.

(** [BEGIN] is among the statements of a trace. *)
Definition began (tr : list Issued) : bool := existsb is_begin tr.

(** ** Top-up and payment *)

(** The amount is a number (or [true], which counts as 1) above zero. *)
Definition positive_number (v : JsValue) : bool :=
  match ToNumber v with
  | Some q => negb (Qle_bool q 0)
  | None => false
  end.

(** The amount is a whole number above zero. *)
Definition positive_integer (v : JsValue) : bool :=
  match v with
  | JsNumber q => negb (Qle_bool q 0) && (Qnum q mod Z.pos (Qden q) =? 0)
  | _ => false
  end.

(** The row [POST /topup] inserts for a user who has none. *)
Definition zero_balance (d : Db) (userId : Z) : BalanceRow :=
  mkBalance (next_balance_id (tbl_balance d)) userId 0.

(** [tbl_balance] once the user is sure to have a row. *)
Definition ensured_balances (d : Db) (userId : Z) : list BalanceRow :=
  match balance_of d userId with
  | Some _ => tbl_balance d
  | None => (tbl_balance d ++ [zero_balance d userId])%list
  end.

(** The two operations that move money. *)
Inductive Mutation : Type :=
| TopUp (userId : Z) (top_up_amount : JsValue)
| Payment (userId : Z) (service_code : option string).

Definition mutation (m : Mutation) (now : Date) (randomBytes : list Byte.byte)
  : Handler :=
  match m with
  | TopUp userId top_up_amount => topup userId top_up_amount now randomBytes
  | Payment userId service_code => transaction userId service_code now randomBytes
  end.


(** The before/after snapshots of a history row agree with its amount
    and the direction of its type. *)
Definition signed_ok (h : HistoryRow) : Prop :=
  match trx_type h with
  | TOPUP => balance_after h - balance_before h = amount h
  | PAYMENT => balance_before h - balance_after h = amount h
  end.

(** ** History listing *)

Definition newest_first (rows : list HistoryView) : Prop :=
  StronglySorted (fun a b => created_on b <= created_on a) rows.

(** The response for the rows the query returned. *)
Definition listing (rows : list HistoryView) : Response :=
  match rows with
  | [] => no_transactions
  | _ :: _ =>
      mkResponse 200 (StatusNum 0) (Some "Get History berhasil") None
        (DataHistory rows)
  end.


(** ** Requests in flight together *)

Inductive Request : Type :=
| GetBalance (userId : Z)
| PostTopup (userId : Z) (top_up_amount : JsValue) (now : Date)
    (randomBytes : list Byte.byte)
| PostTransaction (userId : Z) (service_code : option string) (now : Date)
    (randomBytes : list Byte.byte)
| GetHistory (userId : Z) (query_limit query_offset : option string).

Definition handler (r : Request) : Handler :=
  match r with
  | GetBalance u => get_balance u
  | PostTopup u v now rb => topup u v now rb
  | PostTransaction u sc now rb => transaction u sc now rb
  | GetHistory u l o => history u l o
  end.

(** A payment row records a tariff that the balance it read covers. *)
Definition covered (h : HistoryRow) : Prop :=
  trx_type h = PAYMENT ->
  amount h <= balance_before h /\ balance_after h = balance_before h - amount h.

(** Every payment row, committed or pending, is covered. *)
Definition ledger_covered (s : Session) : Prop :=
  Forall covered (tbl_trx_history (committed s)) /\
  match tx s with
  | InTransaction w => Forall covered (tbl_trx_history w)
  | _ => True
  end.

(** A statement that cannot add an uncovered payment row. *)
Definition stmt_safe {R : Type} (q : Stmt R) : Prop :=
  match q with
  | InsertHistory _ _ amt before after PAYMENT _ =>
      forall a v, integer_param amt = Some a -> integer_of_JsInt after = Some v ->
                  a <= before /\ v = before - a
  | _ => True
  end.

(** A program all of whose statements are safe, whatever the store
    answers. *)
Inductive Safe : Prog -> Prop :=
| safe_ret r : Safe (Ret r)
| safe_throw msg : Safe (Throw msg)
| safe_query {R : Type} (q : Stmt R) k :
    stmt_safe q -> (forall rows, Safe (k rows)) -> Safe (Query q k).

(** ** Requests served one after another *)

(** A session between two requests: no block is open, [balance_id] is a
    key and every history row agrees with its amount. *)
Definition well_formed (s : Session) : Prop :=
  settled s /\ balance_key (committed s) /\
  Forall signed_ok (tbl_trx_history (committed s)).

Definition at_time (t : Z) (s : Session) : Session :=
  mkSession (committed s) (tx s) t.

(** Serves the requests in order; each comes with the time of the
    server clock and the faults of the store while it is served. *)
Fixpoint serve_all (requests : list (Request * Z * list bool)) (s : Session)
  : Session :=
  match requests with
  | [] => s
  | (r, t, faults) :: rest =>
      serve_all rest (session (serve (handler r) faults (at_time t s)))
  end.

(** ** Sample data *)

Definition sample_date : Date := mkDate 2025 10 5 15 34 28.
Definition sample_bytes : list Byte.byte := [Byte.xa4; Byte.xf2].
Definition other_bytes : list Byte.byte := [Byte.x01; Byte.x02].

Definition catalog : list ServiceRow :=
  [mkService "X" "Pulsa" 3000; mkService "Y" "Listrik" 5000].

(** User 7 has no balance row yet. *)
Definition new_user : Session := mkSession (mkDb [7] [] catalog []) Idle 100.

(** User 7 holds 5000 after one top-up. *)
Definition funded : Session :=
  mkSession
    (mkDb [7] [mkBalance 1 7 5000] catalog
       [mkHistory 1 "INV20251105153428-A4F2" 5000 0 5000 TOPUP "Top Up Balance" 100])
    Idle 200.

(** User 7 holds 1000 after a top-up and a payment. *)
Definition spent : Session :=
  mkSession
    (mkDb [7] [mkBalance 1 7 1000] catalog
       [mkHistory 1 "INV20251105153428-A4F2" 4000 0 4000 TOPUP "Top Up Balance" 100;
        mkHistory 1 "INV20251105153500-0102" 3000 4000 1000 PAYMENT "Pulsa" 200])
    Idle 300.

(** Two payments of service X by user 7, and the schedule in which both
    read before either writes. *)
Definition first_payment : Handler :=
  transaction 7 (Some "X") sample_date sample_bytes.

Definition second_payment : Handler :=
  transaction 7 (Some "X") sample_date other_bytes.

Definition both_read_first : list nat :=
  [0; 0; 1; 1; 0; 0; 0; 0; 1; 1; 1; 1]%nat.

(* ================================================================== *)
(** * Further vocabulary *)
(* ================================================================== *)

(** ** What a handler sends *)

(** Every statement the program can send, whatever the store answers,
    satisfies [P]. *)
Inductive Issues (P : Issued -> Prop) : Prog -> Prop :=
| issues_ret r : Issues P (Ret r)
| issues_throw msg : Issues P (Throw msg)
| issues_query {R : Type} (q : Stmt R) k :
    P (issued q) -> (forall rows, Issues P (k rows)) -> Issues P (Query q k).

Definition is_rollback (i : Issued) : bool :=
  match i with
  | issued q => match q with Rollback => true | _ => false end
  end.

Definition is_select (i : Issued) : bool :=
  match i with
  | issued q =>
      match q with
      | SelectBalance _ | SelectService _ | SelectHistory _ _ => true
      | _ => false
      end
  end.




(** The balance [GET /balance] reports. *)
Definition reported_balance (d : Db) (userId : Z) : Z :=
  match balance_of d userId with
  | Some b => balance_value b
  | None => 0
  end.

Definition balance_response (value : Z) : Response :=
  mkResponse 200 (StatusNum 0) (Some "Get Balance Berhasil") None
    (DataBalance (Int value)).

(** ** The balance as the sum of the ledger *)






(* ================================================================== *)
(** * Accounts: registration, login, the token check, the profile *)
(* ================================================================== *)

Module Accounts.

(** ** Request fields *)

(** A field of [req.body]: absent, or a JSON string (a sequence of code
    units).  Fields of another JSON type are not modelled. *)
Definition Field : Type := option string.

(** [x] is truthy: present and not the empty string. *)
Definition truthy (x : Field) : bool :=
  match x with
  | Some (String _ _) => true
  | _ => false
  end.

(** The string of a truthy field. *)
Definition text (x : Field) : string :=
  match x with
  | Some s => s
  | None => ""
  end.

(** ** [String.prototype.split] with a one-character separator *)

Fixpoint split (sep : ascii) (s : string) : list string :=
  match s with
  | EmptyString => [EmptyString]
  | String c rest =>
      if Ascii.eqb c sep then EmptyString :: split sep rest
      else
        match split sep rest with
        | piece :: pieces => String c piece :: pieces
        | [] => [String c EmptyString]
        end
  end.

(** ** The table of users *)

(** Modelled from the spec: the declaration of [tbl_user] is missing; a
    user has an identifier, an email, name fields and a profile image
    reference, and the password column that [/registration] writes.
    The identifier is generated by the store. *)
Record UserRow : Type := mkUser {
  user_id : Z;
  email : string;
  password : string;
  first_name : string;
  last_name : string;
  profile_image : option string
}.

Definition next_user_id (rows : list UserRow) : Z :=
  1 + fold_right Z.max 0 (map user_id rows).

Definition set_names (first last : string) (u : UserRow) : UserRow :=
  mkUser (user_id u) (email u) (password u) first last (profile_image u).

(** The statements the account routes send, each by [pool.query], outside
    any block. *)
Inductive Stmt : Type -> Type :=
  (* SELECT * FROM tbl_user WHERE email = $1 *)
| SelectByEmail (e : string) : Stmt (list UserRow)
  (* INSERT INTO tbl_user (email, password, first_name, last_name, ...) *)
| InsertUser (e hashed first last : string) : Stmt unit
  (* SELECT * FROM tbl_user WHERE user_id = $1 *)
| SelectById (i : Z) : Stmt (list UserRow)
  (* UPDATE tbl_user SET first_name=$1, last_name=$2 WHERE user_id=$3
     RETURNING email, first_name, last_name, profile_image *)
| UpdateNames (first last : string) (i : Z) : Stmt (list UserRow).

Definition run_stmt {R : Type} (users : list UserRow) (q : Stmt R)
  : list UserRow * R :=
  match q in Stmt T return list UserRow * T with
  | SelectByEmail e =>
      (users, filter (fun u => String.eqb (email u) e) users)
  | InsertUser e hashed first last =>
      ((users ++ [mkUser (next_user_id users) e hashed first last None])%list, tt)
  | SelectById i =>
      (users, filter (fun u => user_id u =? i) users)
  | UpdateNames first last i =>
      let rows :=
        map (fun u => if user_id u =? i then set_names first last u else u) users in
      (rows, filter (fun u => user_id u =? i) rows)
  end.

(** ** Responses *)

Inductive Data : Type :=
| DataAbsent
| DataEmpty
| DataToken (token : string)
| DataProfile (email first_name last_name : string) (profile_image : option string).

Record Response : Type := mkResponse {
  http_status : Z;
  status : Z;
  message : string;
  data : Data
}.

Definition catch_status_100 (msg : string) : Response :=
  mkResponse 500 100 msg DataAbsent.

Definition missing_parameter : Response :=
  mkResponse 400 201 "Ada parameter yang kurang" DataEmpty.

Definition bad_email : Response :=
  mkResponse 400 102 "Parameter email tidak sesuai format" DataEmpty.

Definition short_password : Response :=
  mkResponse 400 202 "Password harus lebih dari 8 karakter" DataEmpty.

Definition email_taken : Response :=
  mkResponse 400 203 "Email sudah terdaftar" DataEmpty.

Definition registered : Response :=
  mkResponse 200 0 "Registrasi berhasil, silahkan login" DataEmpty.

Definition bad_credentials : Response :=
  mkResponse 401 103 "Username atau password salah" DataEmpty.

Definition logged_in (token : string) : Response :=
  mkResponse 200 0 "Login sukses" (DataToken token).

Definition profile_not_found : Response :=
  mkResponse 401 204 "Profile tidak ditemukan" DataEmpty.

Definition profile_of (u : UserRow) : Data :=
  DataProfile (email u) (first_name u) (last_name u) (profile_image u).

Definition invalid_token (code : Z) : Response :=
  mkResponse code 108 "Token tidak tidak valid atau kadaluwarsa" DataEmpty.

(** ** Handlers as programs *)

Inductive Prog : Type :=
| Ret (r : Response)
| Query {R : Type} (q : Stmt R) (k : R -> Prog).

Inductive Issued : Type :=
| issued {R : Type} (q : Stmt R).

Record Outcome : Type := mkOutcome {
  users_after : list UserRow;
  response : Response;
  trace : list Issued
}.

(** Runs a handler to its response.  [faults] tells, statement by
    statement, whether the store fails it; a failed statement ends in
    the [catch] of the handler, which is the same in every route. *)
Fixpoint run (p : Prog) (faults : list bool) (users : list UserRow) : Outcome :=
  match p with
  | Ret r => mkOutcome users r []
  | Query q k =>
      if hd false faults then
        mkOutcome users (catch_status_100 "store failure") [issued q]
      else
        let o := run (k (snd (run_stmt users q))) (tl faults)
                   (fst (run_stmt users q)) in
        mkOutcome (users_after o) (response o) (issued q :: trace o)
  end.

(** ** The libraries the routes call *)

(** The payload [/login] signs and [jwt.verify] hands to [req.user]. *)
Record Payload : Type := mkPayload {
  token_id : Z;
  token_email : string;
  token_first_name : string;
  token_last_name : string;
  token_profile_image : option string
}.

Class Libraries : Type := {
  (* validator.isEmail(email) *)
  isEmail : string -> bool;
  (* bcrypt.hash(password, 10), by the salt it draws *)
  hash : string -> string -> string;
  (* bcrypt.compare(password, hashed) *)
  compare : string -> string -> bool;
  (* jwt.sign(payload, JWT_SECRET, { expiresIn: "12h" }), by the time *)
  sign : Z -> Payload -> string;
  (* jwt.verify(token, JWT_SECRET), by the time *)
  verify : Z -> string -> option Payload
}.

Section Routes.

Context {lib : Libraries}.

(** [POST /registration]. *)
Definition registration (email password first_name last_name : Field)
    (salt : string) : Prog :=
  if negb (truthy email) || negb (truthy password)
     || negb (truthy first_name) || negb (truthy last_name)
  then Ret missing_parameter
  else if negb (isEmail (text email)) then Ret bad_email
  else if (String.length (text password) <? 8)%nat then Ret short_password
  else
    Query (SelectByEmail (text email)) (fun checkEmail =>
      match checkEmail with
      | _ :: _ => Ret email_taken
      | [] =>
          Query (InsertUser (text email) (hash (text password) salt)
                   (text first_name) (text last_name))
            (fun _ => Ret registered)
      end).

Definition payload_of (user : UserRow) : Payload :=
  mkPayload (user_id user) (Accounts.email user) (Accounts.first_name user)
    (Accounts.last_name user) (profile_image user).

(** [POST /login]. *)
Definition login (now : Z) (email password : Field) : Prog :=
  if negb (truthy email) || negb (truthy password) then Ret missing_parameter
  else if negb (isEmail (text email)) then Ret bad_email
  else
    Query (SelectByEmail (text email)) (fun userResult =>
      match userResult with
      | [] => Ret bad_credentials
      | user :: _ =>
          if compare (text password) (Accounts.password user)
          then Ret (logged_in (sign now (payload_of user)))
          else Ret bad_credentials
      end).

(** [GET /profile], behind [verifyToken]. *)
Definition profile (user : Payload) : Prog :=
  Query (SelectById (token_id user)) (fun userResult =>
    match userResult with
    | [] => Ret profile_not_found
    | row :: _ => Ret (mkResponse 200 0 "Sukses" (profile_of row))
    end).

(** [PUT /profile/update], behind [verifyToken]; [data] is
    [result.rows[0]], left out of the JSON when there is no row. *)
Definition profile_update (user : Payload) (first_name last_name : Field) : Prog :=
  if negb (truthy first_name) || negb (truthy last_name)
  then Ret (mkResponse 400 201 "Ada parameter yang kurang" DataAbsent)
  else
    Query (UpdateNames (text first_name) (text last_name) (token_id user))
      (fun result =>
         Ret (mkResponse 200 0 "Update Pofile berhasil"
                match result with
                | [] => DataAbsent
                | row :: _ => profile_of row
                end)).

(** [authHeader && authHeader.split(" ")[1]]. *)
Definition token_of (authHeader : option string) : Field :=
  match authHeader with
  | Some (String c header) => nth_error (split " " (String c header)) 1
  | _ => None
  end.

(** [verifyToken]: the response it sends, or the user it hands on in
    [req.user]. *)
Definition verifyToken (now : Z) (authHeader : option string)
  : Response + Payload :=
  let token := token_of authHeader in
  if negb (truthy token) then inl (invalid_token 401)
  else
    match verify now (text token) with
    | None => inl (invalid_token 403)
    | Some user => inr user
    end.

(** A route registered behind [verifyToken]. *)
Definition protected (now : Z) (authHeader : option string)
    (route : Payload -> Prog) (faults : list bool) (users : list UserRow)
  : Outcome :=
  match verifyToken now authHeader with
  | inl refusal => mkOutcome users refusal []
  | inr user => run (route user) faults users
  end.

(** ** Requests *)

Inductive Request : Type :=
| PostRegistration (email password first_name last_name : Field) (salt : string)
| PostLogin (email password : Field)
| GetProfile (authorization : option string)
| PutProfileUpdate (authorization : option string) (first_name last_name : Field).

Definition serve (now : Z) (r : Request) (faults : list bool)
    (users : list UserRow) : Outcome :=
  match r with
  | PostRegistration e p f l salt => run (registration e p f l salt) faults users
  | PostLogin e p => run (login now e p) faults users
  | GetProfile h => protected now h profile faults users
  | PutProfileUpdate h f l =>
      protected now h (fun user => profile_update user f l) faults users
  end.

(** Serves the requests in order, each with the time it arrives and the
    faults of the store while it is served. *)
Fixpoint serve_all (requests : list (Request * Z * list bool))
    (users : list UserRow) : list UserRow :=
  match requests with
  | [] => users
  | (r, now, faults) :: rest =>
      serve_all rest (users_after (serve now r faults users))
  end.

End Routes.

(** ** Vocabulary *)

(** No code unit of [s] is a space. *)
Fixpoint no_space (s : string) : bool :=
  match s with
  | EmptyString => true
  | String c rest => negb (Ascii.eqb c " ") && no_space rest
  end.

(** [rows[0]] of a [SELECT ... WHERE email = $1]. *)
Definition user_of_email (users : list UserRow) (e : string) : option UserRow :=
  find (fun u => String.eqb (email u) e) users.

(** [rows[0]] of a [SELECT ... WHERE user_id = $1]. *)
Definition user_of_id (users : list UserRow) (i : Z) : option UserRow :=
  find (fun u => user_id u =? i) users.

(** Emails and identifiers are keys of the table. *)
Definition keyed (users : list UserRow) : Prop :=
  NoDup (map email users) /\ NoDup (map user_id users).

End Accounts.

(** ** Sample accounts *)

(** Stand-ins for the libraries, to run the routes on examples: an
    address has one [@] between two non-empty parts; a hash is the salt,
    [$] and the password; a token lists its expiry and the payload
    between bars. *)
Definition sample_libraries : Accounts.Libraries := {|
  Accounts.isEmail := fun e =>
    match Accounts.split "@" e with
    | [String _ _; String _ _] => true
    | _ => false
    end;
  Accounts.hash := fun pw salt => (salt ++ "$" ++ pw)%string;
  Accounts.compare := fun pw hashed =>
    match Accounts.split "$" hashed with
    | [_; stored] => String.eqb stored pw
    | _ => false
    end;
  Accounts.sign := fun now user =>
    (toString (now + 43200) ++ "|" ++ toString (Accounts.token_id user)
     ++ "|" ++ Accounts.token_email user
     ++ "|" ++ Accounts.token_first_name user
     ++ "|" ++ Accounts.token_last_name user)%string;
  Accounts.verify := fun now token =>
    match Accounts.split "|" token with
    | [expiry; i; e; first; last] =>
        match decimal expiry, decimal i with
        | Some x, Some n =>
            if now <? x then Some (Accounts.mkPayload n e first last None) else None
        | _, _ => None
        end
    | _ => None
    end
|}.

Definition ana : Accounts.Request :=
  Accounts.PostRegistration (Some "ana@mail.id") (Some "rahasia8")
    (Some "Ana") (Some "Putri") "s1".

Definition ana_row : Accounts.UserRow :=
  Accounts.mkUser 1 "ana@mail.id" "s1$rahasia8" "Ana" "Putri" None.

Definition ana_token : string := "43300|1|ana@mail.id|Ana|Putri".

(* ================================================================== *)
(** * Properties *)
(* ================================================================== *)

Example invoice_example :
  generateInvoiceNumber sample_date sample_bytes = "INV20251105153428-A4F2".
Proof. reflexivity. Qed.

Example parseInt_examples :
  parseInt "10" = Int 10 /\ parseInt " -7px" = Int (-7) /\
  parseInt "0x1f" = Int 31 /\ parseInt "abc" = NaN /\ parseInt "" = NaN /\
  parseInt_number (25 # 2) = Int 12 /\
  parseInt_number (5 # 10000000) = Int 5 /\
  parseInt_number (inject_Z (10 ^ 21)) = Int 1 /\
  parseInt_number (inject_Z (-3 * 10 ^ 22)) = Int (-3) /\
  parseInt_number (-(1 # 2)) = Int 0.
Proof. repeat split; vm_compute; reflexivity. Qed.

(** Scenario 1 and 2 of the specification, run one after the other. *)
Example topup_then_payment :
  let o1 := serve (topup 7 (JsNumber 5000) sample_date sample_bytes) [] new_user in
  let o2 := serve (transaction 7 (Some "X") sample_date other_bytes) [] (session o1) in
  data (response o1) = DataBalance (Int 5000) /\
  tbl_balance (committed (session o1)) = [mkBalance 1 7 5000] /\
  tbl_balance (committed (session o2)) = [mkBalance 1 7 2000] /\
  map (fun h => (trx_type h, amount h, balance_before h, balance_after h))
    (tbl_trx_history (committed (session o2)))
  = [(TOPUP, 5000, 0, 5000); (PAYMENT, 3000, 5000, 2000)].
Proof. vm_compute. repeat split. Qed.

(** ** The invoice number generator *)

Lemma range_check (p : Z -> bool) (lo len : Z) :
  forallb (fun i => p (lo + Z.of_nat i)) (seq 0 (Z.to_nat len)) = true ->
  forall v, lo <= v < lo + len -> p v = true.
Proof.
  intros Hall v Hv.
  rewrite forallb_forall in Hall.
  replace v with (lo + Z.of_nat (Z.to_nat (v - lo))) by lia.
  apply Hall, in_seq. lia.
Qed.

Lemma digits_ok_sound render n v :
  digits_ok render n v = true -> digits_of n (render v) v.
Proof.
  unfold digits_ok, digits_of. intros H.
  apply andb_prop in H as [H Hd]. apply andb_prop in H as [Hl Hc].
  destruct (decimal _) as [w|]; [|discriminate].
  apply Z.eqb_eq in Hd. apply Nat.eqb_eq in Hl. subst w. auto.
Qed.

Lemma two_digits v :
  0 <= v <= 99 -> digits_of 2 (padStart 2 "0" (toString v)) v.
Proof.
  intros Hv. apply (digits_ok_sound (fun x => padStart 2 "0" (toString x))).
  apply (range_check _ 0 100); [vm_compute; reflexivity | lia].
Qed.

Lemma four_digits v :
  1000 <= v <= 9999 -> digits_of 4 (toString v) v.
Proof.
  intros Hv. apply (digits_ok_sound toString).
  apply (range_check _ 1000 9000); [vm_compute; reflexivity | lia].
Qed.

Lemma decimal_toString z : decimal (toString z) = Some z.
Proof.
  unfold decimal, toString.
  rewrite NilZero.isi.
  - cbn [option_map]. now rewrite DecimalZ.of_to.
  - destruct z; cbn; intros [= H]; try discriminate.
    exact (Unsigned.to_uint_nonnil _ H).
  - destruct z; cbn; intros [= H]; try discriminate.
    exact (Unsigned.to_uint_nonnil _ H).
Qed.

Lemma hex_pair_of_byte (b : Byte.byte) :
  let hi := upper_char (hex_digit (Byte.to_N b / 16)) in
  let lo := upper_char (hex_digit (Byte.to_N b mod 16)) in
  upper_hex_char hi = true /\ upper_hex_char lo = true /\
  digit_value 16 hi = Some (byte_value b / 16) /\
  digit_value 16 lo = Some (byte_value b mod 16).
Proof. destruct b; vm_compute; repeat split; reflexivity. Qed.

Lemma toUpperCase_buffer_hex_cons b rest :
  toUpperCase (buffer_hex (b :: rest)) =
  String (upper_char (hex_digit (Byte.to_N b / 16)))
    (String (upper_char (hex_digit (Byte.to_N b mod 16)))
       (toUpperCase (buffer_hex rest))).
Proof. reflexivity. Qed.

Lemma random_part_format b1 b2 :
  let hex := toUpperCase (buffer_hex [b1; b2]) in
  String.length hex = 4%nat /\ all_chars upper_hex_char hex = true /\
  parse_digits 16 hex false 0 = (true, 256 * byte_value b1 + byte_value b2).
Proof.
  cbv zeta. rewrite !toUpperCase_buffer_hex_cons.
  destruct (hex_pair_of_byte b1) as (U1 & U2 & D1 & D2).
  destruct (hex_pair_of_byte b2) as (U3 & U4 & D3 & D4).
  cbv zeta in *.
  split; [reflexivity|]. split.
  - cbn [all_chars buffer_hex toUpperCase]. rewrite U1, U2, U3, U4. reflexivity.
  - cbn [parse_digits buffer_hex toUpperCase]. rewrite D1, D2, D3, D4.
    f_equal.
    pose proof (Z.div_mod (byte_value b1) 16 ltac:(lia)).
    pose proof (Z.div_mod (byte_value b2) 16 ltac:(lia)).
    lia.
Qed.

(** C9.  The invoice number is the prefix [INV], then the numeral of
    the year (four digits in a four-digit year) and month, day, hour,
    minute and second in two zero-padded digits each, then a dash and
    the two random bytes as four upper-case hexadecimal digits, from
    which both bytes can be read back. *)
Theorem generateInvoiceNumber_format (now : Date) (b1 b2 : Byte.byte) :
  calendar now ->
  exists yyyy mm dd hh mi ss hex,
    generateInvoiceNumber now [b1; b2]
      = ("INV" ++ (yyyy ++ mm ++ dd ++ hh ++ mi ++ ss) ++ "-" ++ hex)%string /\
    decimal yyyy = Some (getFullYear now) /\
    (1000 <= getFullYear now <= 9999 -> digits_of 4 yyyy (getFullYear now)) /\
    digits_of 2 mm (getMonth now + 1) /\
    digits_of 2 dd (getDate now) /\
    digits_of 2 hh (getHours now) /\
    digits_of 2 mi (getMinutes now) /\
    digits_of 2 ss (getSeconds now) /\
    String.length hex = 4%nat /\
    all_chars upper_hex_char hex = true /\
    parse_digits 16 hex false 0 = (true, 256 * byte_value b1 + byte_value b2).
Proof.
  intros (Hm & Hd & Hh & Hi & Hs).
  exists (toString (getFullYear now)),
         (padStart 2 "0" (toString (getMonth now + 1))),
         (padStart 2 "0" (toString (getDate now))),
         (padStart 2 "0" (toString (getHours now))),
         (padStart 2 "0" (toString (getMinutes now))),
         (padStart 2 "0" (toString (getSeconds now))),
         (toUpperCase (buffer_hex [b1; b2])).
  split; [reflexivity|].
  split; [apply decimal_toString|].
  split; [apply four_digits|].
  split; [apply two_digits; lia|].
  split; [apply two_digits; lia|].
  split; [apply two_digits; lia|].
  split; [apply two_digits; lia|].
  split; [apply two_digits; lia|].
  apply random_part_format.
Qed.

Lemma generateInvoiceNumber_format_witness :
  calendar sample_date /\
  exists yyyy mm dd hh mi ss hex,
    generateInvoiceNumber sample_date [Byte.xa4; Byte.xf2]
      = ("INV" ++ (yyyy ++ mm ++ dd ++ hh ++ mi ++ ss) ++ "-" ++ hex)%string /\
    decimal yyyy = Some 2025 /\
    (1000 <= 2025 <= 9999 -> digits_of 4 yyyy 2025) /\
    digits_of 2 mm 11 /\ digits_of 2 dd 5 /\
    digits_of 2 hh 15 /\ digits_of 2 mi 34 /\ digits_of 2 ss 28 /\
    String.length hex = 4%nat /\
    all_chars upper_hex_char hex = true /\
    parse_digits 16 hex false 0 = (true, 256 * 164 + 242).
Proof.
  assert (H : calendar sample_date).
  { unfold calendar; simpl; lia. }
  split; [exact H|].
  exact (generateInvoiceNumber_format sample_date Byte.xa4 Byte.xf2 H).
Defined.

(** ** Lists, numbers and parameters *)

Lemma find_filter {A} (f : A -> bool) l :
  find f l = hd_error (filter f l).
Proof.
  induction l as [|a l IH]; simpl; [reflexivity|].
  destruct (f a); simpl; auto.
Qed.

Lemma filter_of_find {A} (f : A -> bool) l a :
  find f l = Some a -> exists rest, filter f l = a :: rest.
Proof.
  rewrite find_filter.
  destruct (filter f l); simpl; intros H; inversion H; eauto.
Qed.

Lemma find_map_update {A} (f : A -> bool) (g : A -> A) l a :
  (forall x, f (g x) = f x) -> find f l = Some a -> find f (map g l) = Some (g a).
Proof.
  intros Hg. induction l as [|x l IH]; simpl; [discriminate|].
  rewrite Hg. destruct (f x); [intros H; inversion H; reflexivity | exact IH].
Qed.

Lemma filter_map_same {A} (f : A -> bool) (g : A -> A) l :
  (forall x, f (g x) = f x) -> filter f (map g l) = map g (filter f l).
Proof.
  intros Hg. induction l as [|x l IH]; simpl; [reflexivity|].
  rewrite Hg. destruct (f x); simpl; now rewrite IH.
Qed.

Lemma integer_param_inject t a :
  integer_param (JsNumber (inject_Z t)) = Some a -> a = t /\ int4 t = true.
Proof.
  unfold integer_param. simpl. rewrite Z.mod_1_r, Z.div_1_r. simpl.
  destruct (int4 t); intros H; inversion H; auto.
Qed.

Lemma integer_of_Int z v :
  integer_of_JsInt (Int z) = Some v -> v = z /\ int4 z = true.
Proof. simpl. destruct (int4 z); intros H; inversion H; auto. Qed.

(** The validation of [POST /topup] lets through exactly the positive
    numbers. *)
Lemma validation_positive v :
  negb (truthy v) || isNaN v || le_zero v = negb (positive_number v).
Proof.
  destruct v as [| |[|]|q]; try reflexivity.
  unfold truthy, isNaN, le_zero, positive_number. simpl.
  rewrite negb_involutive, orb_false_r.
  destruct (Qle_bool q 0) eqn:E; [apply orb_true_r|].
  rewrite orb_false_r.
  destruct (Qeq_bool q 0) eqn:E0; [|reflexivity].
  apply Qeq_bool_iff in E0.
  assert (Qle_bool q 0 = true) by (apply Qle_bool_iff; rewrite E0; apply Qle_refl).
  congruence.
Qed.

(** [parseInt] returns an integer the store accepts unchanged. *)
Lemma parseInt_number_integer q n :
  integer_param (JsNumber q) = Some n -> parseInt_number q = Int n.
Proof.
  unfold integer_param, parseInt_number.
  destruct q as [num den]. cbn [Qnum Qden].
  destruct (num mod Z.pos den =? 0) eqn:Em; [|discriminate].
  destruct (int4 (num / Z.pos den)) eqn:E4; [|discriminate].
  cbn [andb]. intros [= <-].
  apply Z.eqb_eq in Em.
  unfold int4 in E4. apply andb_prop in E4 as [Hlo Hhi].
  apply Z.leb_le in Hlo, Hhi.
  pose proof (Z.div_mod num (Z.pos den) ltac:(lia)) as Hdm.
  rewrite Em, Z.add_0_r in Hdm.
  revert Hlo Hhi Hdm. generalize (num / Z.pos den). intros n Hlo Hhi Hdm.
  assert (Hq : Z.quot num (Z.pos den) = n).
  { rewrite Hdm, Z.mul_comm. apply Z.quot_mul. lia. }
  assert (Hk : 2147483648 < 10 ^ 21) by (vm_compute; reflexivity).
  revert Hk. generalize (10 ^ 21). intros K Hk.
  assert (Hp : 0 < Z.pos den) by lia.
  revert Hp Hdm Hq. generalize (Z.pos den). intros P Hp Hdm Hq.
  destruct (Z.abs num =? 0) eqn:Ea.
  - apply Z.eqb_eq in Ea. f_equal.
    assert (H0 : num = 0) by lia. rewrite H0 in Hdm.
    symmetry in Hdm. apply Z.mul_eq_0 in Hdm. lia.
  - apply Z.eqb_neq in Ea.
    assert (Habs : Z.abs num = P * Z.abs n).
    { rewrite Hdm at 1. rewrite Z.abs_mul. f_equal. lia. }
    assert (Hn1 : 1 <= Z.abs n).
    { destruct (Z.eq_dec n 0) as [->|]; [rewrite Z.mul_0_r in Hdm; lia | lia]. }
    assert (Hge : P * 1 <= P * Z.abs n) by (apply Z.mul_le_mono_nonneg_l; lia).
    assert (Hlt : P * Z.abs n < P * K) by (apply Z.mul_lt_mono_pos_l; lia).
    destruct (Z.abs num * 1000000 <? P) eqn:E1.
    + apply Z.ltb_lt in E1. lia.
    + destruct (Z.abs num <? P * K) eqn:E2.
      * now rewrite Hq.
      * apply Z.ltb_ge in E2. lia.
Qed.

Lemma parseInt_number_int4 z :
  int4 z = true -> parseInt_number (inject_Z z) = Int z.
Proof.
  intros H. apply parseInt_number_integer.
  unfold integer_param, inject_Z. cbn [Qnum Qden].
  rewrite Z.mod_1_r, Z.div_1_r, H. reflexivity.
Qed.

Lemma positive_integer_param v n :
  positive_number v = true -> integer_param v = Some n -> 0 < n.
Proof.
  destruct v as [| |b|q]; try discriminate.
  unfold positive_number, integer_param. cbn [ToNumber].
  destruct q as [num den]. cbn [Qnum Qden].
  intros Hp.
  destruct (num mod Z.pos den =? 0) eqn:Em; [|discriminate].
  destruct (int4 _); [|discriminate]. cbn [andb]. intros [= <-].
  apply negb_true_iff in Hp.
  assert (~ (num # den <= 0)%Q) as Hn.
  { intros Hle. apply Qle_bool_iff in Hle. congruence. }
  unfold Qle in Hn. cbn [Qnum Qden] in Hn.
  assert (Hnum : 0 < num) by lia.
  apply Z.eqb_eq in Em.
  pose proof (Z.div_mod num (Z.pos den) ltac:(lia)) as Hdm.
  rewrite Em, Z.add_0_r in Hdm.
  destruct (Z_le_gt_dec (num / Z.pos den) 0) as [Hle|]; [|lia].
  assert (Z.pos den * (num / Z.pos den) <= 0) by (apply Z.mul_nonneg_nonpos; lia).
  lia.
Qed.

Lemma new_balance_value cur v n :
  int4 cur = true -> integer_param v = Some n ->
  add (parseInt_number (inject_Z cur)) (parseInt_value v) = Int (cur + n).
Proof.
  intros Hc Hv. rewrite (parseInt_number_int4 _ Hc).
  destruct v as [| |b|q]; try discriminate.
  cbn [parseInt_value]. rewrite (parseInt_number_integer _ _ Hv). reflexivity.
Qed.

Lemma no_fault_head n faults :
  no_fault (S n) faults -> hd false faults = false /\ no_fault n (tl faults).
Proof.
  unfold no_fault. destruct faults as [|[|] faults]; cbn; auto.
  - intros _. split; [reflexivity|]. destruct n; reflexivity.
  - discriminate.
Qed.

(** ** Rows of [tbl_balance] *)

Lemma updated_rows u z base b rest :
  filter (fun x => user_id x =? u) base = b :: rest ->
  filter (fun x => user_id x =? u)
    (map (fun x => if user_id x =? u then set_balance_value z x else x) base)
  = set_balance_value z b
      :: map (fun x => if user_id x =? u then set_balance_value z x else x) rest.
Proof.
  intros H. rewrite filter_map_same.
  - rewrite H. cbn [map].
    assert (Hin : In b (filter (fun x => user_id x =? u) base))
      by (rewrite H; left; reflexivity).
    apply filter_In in Hin as [_ Hu]. rewrite Hu. reflexivity.
  - intros x. destruct (user_id x =? u) eqn:E; cbn [set_balance_value user_id];
      rewrite ?E; reflexivity.
Qed.

Lemma filter_with_zero u rows id :
  filter (fun x => user_id x =? u) rows = [] ->
  filter (fun x => user_id x =? u) (rows ++ [mkBalance id u 0]) = [mkBalance id u 0].
Proof.
  intros H. rewrite filter_app, H. cbn [filter app user_id].
  rewrite Z.eqb_refl. reflexivity.
Qed.

Lemma next_balance_id_fresh rows x :
  In x rows -> balance_id x < next_balance_id rows.
Proof.
  unfold next_balance_id.
  induction rows as [|y rows IH]; cbn [In map fold_right]; [tauto|].
  intros [->|Hin]; [lia|]. specialize (IH Hin). lia.
Qed.


Lemma ensured_balances_key d u :
  balance_key d -> NoDup (map balance_id (ensured_balances d u)).
Proof.
  unfold balance_key, ensured_balances. intros Hnd.
  destruct (balance_of d u); [exact Hnd|].
  rewrite map_app. cbn [map zero_balance balance_id].
  apply NoDup_app; [exact Hnd | repeat constructor; cbn; tauto |].
  intros k Hk [<-|[]].
  apply in_map_iff in Hk as (x & Hx & Hin).
  pose proof (next_balance_id_fresh _ _ Hin). lia.
Qed.

(** ** Running a handler symbolically *)

Ltac sym_in H :=
  cbn [serve run hd tl exec run_stmt tx current committed put abort end_block
       ends_block body on_error session response trace http_status clock
       with_balance with_history tbl_user tbl_balance tbl_service
       tbl_trx_history] in H.

(** Follows the run recorded in [H] through every branch: the next
    fault flag, the rows a [SELECT] finds, the parameters the server
    accepts and the tests of the handler. *)
Ltac crunch H :=
  repeat (sym_in H;
    match type of H with
    | context [hd false ?l] => destruct (hd false l) eqn:?
    | context [match filter ?f ?l with _ => _ end] =>
        let E := fresh "Efilter" in destruct (filter f l) eqn:E
    | context [match integer_of_JsInt ?x with _ => _ end] =>
        let E := fresh "Eint" in destruct (integer_of_JsInt x) eqn:E
    | context [match integer_param ?x with _ => _ end] =>
        let E := fresh "Eparam" in destruct (integer_param x) eqn:E
    | context [if ?c then _ else _] =>
        let E := fresh "Econd" in destruct c eqn:E
    end); sym_in H.

(** What [POST /transaction] comes to, from an idle session: a failure
    that leaves the committed data alone, or the one successful run. *)
Lemma transaction_cases u sc now rb faults s :
  tx s = Idle ->
  let o := serve (transaction u sc now rb) faults s in
  (http_status (response o) <> 200 /\ unchanged s (session o))
  \/
  (exists code b sv,
     sc = Some code /\ code <> "" /\
     balance_of (committed s) u = Some b /\
     service_of (committed s) code = Some sv /\
     service_tariff sv <= balance_value b /\
     let h := mkHistory (balance_id b) (generateInvoiceNumber now rb)
                (service_tariff sv) (balance_value b)
                (balance_value b - service_tariff sv) PAYMENT (service_name sv)
                (clock s) in
     session o =
       mkSession
         (mkDb (tbl_user (committed s))
            (map (fun x => if balance_id x =? balance_id b
                           then set_balance_value
                                  (balance_value b - service_tariff sv) x
                           else x) (tbl_balance (committed s)))
            (tbl_service (committed s))
            (tbl_trx_history (committed s) ++ [h]))
         Idle (clock s) /\
     response o = mkResponse 200 StatusAbsent (Some "Transaksi berhasil") None
                    (DataPayment (generateInvoiceNumber now rb) code
                       (service_name sv) "PAYMENT" (service_tariff sv)
                       (created_date h)) /\
     trace o = [issued (SelectBalance u); issued (SelectService code); issued Begin;
                issued (UpdateBalanceById
                          (Int (balance_value b - service_tariff sv)) (balance_id b));
                issued (InsertHistory (balance_id b) (generateInvoiceNumber now rb)
                          (JsNumber (inject_Z (service_tariff sv))) (balance_value b)
                          (Int (balance_value b - service_tariff sv)) PAYMENT
                          (service_name sv));
                issued Commit]).
Proof.
  intros Htx o.
  destruct s as [d t c]. simpl in Htx. subst t.
  remember o as o' eqn:Ho. subst o.
  unfold transaction, balance_of, service_of in *. rewrite !find_filter.
  destruct sc as [code|];
    [|left; subst; simpl; unfold unchanged, settled; simpl; intuition discriminate].
  crunch Ho.
  all: try (left; subst o'; unfold unchanged, settled; simpl; intuition discriminate).
  cbn [session response trace] in Ho.
  apply integer_of_Int in Eint as [-> _].
  apply integer_param_inject in Eparam as [-> _].
  apply Z.ltb_ge in Econd0.
  right. exists code, b, s. subst o'.
  cbn [session response trace hd_error committed clock created_date].
  repeat split; try assumption; try reflexivity.
  - intros ->. discriminate.
  - rewrite Efilter. reflexivity.
  - rewrite find_filter, Efilter0. reflexivity.
Qed.

(** What [POST /topup] comes to, from an idle session: a failure that
    commits at most the row created for the user, or the one successful
    run. *)
Lemma topup_cases u v now rb faults s :
  tx s = Idle ->
  let o := serve (topup u v now rb) faults s in
  let d := committed s in
  (http_status (response o) <> 200 /\
   clock (session o) = clock s /\
   (tx (session o) = Idle \/ tx (session o) = Aborted) /\
   tbl_user (committed (session o)) = tbl_user d /\
   tbl_service (committed (session o)) = tbl_service d /\
   tbl_trx_history (committed (session o)) = tbl_trx_history d /\
   ((began (trace o) = false /\
     tbl_balance (committed (session o)) = tbl_balance d) \/
    tbl_balance (committed (session o)) = ensured_balances d u))
  \/
  (exists n b,
     integer_param v = Some n /\ 0 < n /\
     find (fun x => user_id x =? u) (ensured_balances d u) = Some b /\
     let total := balance_value b + n in
     let h := mkHistory (balance_id b) (generateInvoiceNumber now rb) n
                (balance_value b) total TOPUP "Top Up Balance" (clock s) in
     session o =
       mkSession
         (mkDb (tbl_user d)
            (map (fun x => if user_id x =? u then set_balance_value total x else x)
               (ensured_balances d u))
            (tbl_service d)
            (tbl_trx_history d ++ [h]))
         Idle (clock s) /\
     response o = mkResponse 200 (StatusNum 0) (Some "Topup berhasil") None
                    (DataBalance (Int total))).
Proof.
  intros Htx o d. subst d.
  destruct s as [d t c]. simpl in Htx. subst t.
  remember o as o' eqn:Ho. subst o.
  unfold topup, ensured_balances, balance_of in *. rewrite !find_filter.
  cbn [committed clock].
  crunch Ho.
  all: try (left; subst o'; simpl; intuition discriminate).
  all: first
    [ rewrite (updated_rows _ _ _ _ _ Efilter) in Efilter0
    | rewrite (updated_rows _ _ _ _ _ (filter_with_zero _ _ _ Efilter)) in Efilter0 ].
  all: try discriminate.
  all: injection Efilter0 as <- _.
  all: cbn [set_balance_value balance_id] in Ho.
  all: rewrite validation_positive in Econd; apply negb_false_iff in Econd.
  all: pose proof (positive_integer_param _ _ Econd Eparam) as Hpos.
  all: rewrite (new_balance_value _ _ _ Econd0 Eparam) in *.
  all: apply integer_of_Int in Eint0 as [-> _].
  all: injection Eint as <-.
  all: right; exists z1.
  - exists (zero_balance d u). subst o'. unfold zero_balance. cbn [hd_error].
    rewrite (filter_with_zero _ _ _ Efilter).
    cbn. repeat split; auto.
  - exists b. subst o'. cbn [hd_error]. rewrite Efilter. cbn. repeat split; auto.
Qed.

(** ** A session left in an aborted block *)

(** In an aborted block every statement but [COMMIT] and [ROLLBACK] is
    refused. *)
Lemma exec_aborted {R} s f (q : Stmt R) :
  tx s = Aborted -> ends_block q = false ->
  exists err, exec s f q = (s, inl err).
Proof.
  intros Htx Hq. unfold exec. rewrite Hq.
  destruct f.
  - unfold abort. rewrite Htx. eauto.
  - rewrite Htx. destruct q; try discriminate; eauto.
Qed.

(** No handler starts with [COMMIT] or [ROLLBACK]: on a session left in
    an aborted block every request fails and changes nothing. *)
Lemma aborted_session_refuses r faults s :
  tx s = Aborted ->
  session (serve (handler r) faults s) = s /\
  http_status (response (serve (handler r) faults s)) <> 200.
Proof.
  intros Htx. unfold serve.
  destruct r as [u|u v now rb|u sc now rb|u l o]; cbn [handler].
  - unfold get_balance. cbn [body on_error run].
    destruct (exec_aborted s (hd false faults) (SelectBalance u) Htx eq_refl) as [err ->].
    cbn. split; [reflexivity | discriminate].
  - unfold topup. cbn [body on_error].
    destruct (negb (truthy v) || isNaN v || le_zero v).
    + cbn. split; [reflexivity | discriminate].
    + cbn [run].
      destruct (exec_aborted s (hd false faults) (SelectBalance u) Htx eq_refl) as [err ->].
      cbn. split; [reflexivity | discriminate].
  - unfold transaction. cbn [body on_error].
    destruct sc as [code|]; [|cbn; split; [reflexivity | discriminate]].
    destruct (String.length code =? 0)%nat; [cbn; split; [reflexivity | discriminate]|].
    cbn [run].
    destruct (exec_aborted s (hd false faults) (SelectBalance u) Htx eq_refl) as [err ->].
    cbn. split; [reflexivity | discriminate].
  - unfold history. cbn [body on_error run].
    match goal with |- context [exec s ?f ?q] =>
      destruct (exec_aborted s f q Htx eq_refl) as [err ->] end.
    cbn. split; [reflexivity | discriminate].
Qed.


(** ** Atomicity *)




(** C3, as amended.  For a top-up by a user who has no balance row, the
    zero-value row is inserted by a statement of its own before
    [BEGIN], and so committed at once; when the top-up then fails, the
    row stays in the committed table, and no history row is added. *)
Theorem topup_creates_balance_before_transaction u v now rb faults s :
  tx s = Idle ->
  balance_of (committed s) u = None ->
  positive_number v = true ->
  no_fault 2 faults ->
  let o := serve (topup u v now rb) faults s in
  (exists rest,
     trace o = issued (SelectBalance u) :: issued (InsertBalance u)
                 :: issued Begin :: rest) /\
  (http_status (response o) <> 200 ->
   tbl_balance (committed (session o))
   = (tbl_balance (committed s) ++ [zero_balance (committed s) u])%list /\
   tbl_trx_history (committed (session o)) = tbl_trx_history (committed s)).
Proof.
  intros Htx Hnone Hv Hf o.
  assert (Hbegan : exists rest,
     trace o = issued (SelectBalance u) :: issued (InsertBalance u)
                 :: issued Begin :: rest).
  { subst o. destruct s as [d t c]. simpl in Htx. subst t.
    apply no_fault_head in Hf as [Hf1 Hf].
    apply no_fault_head in Hf as [Hf2 _].
    unfold balance_of in Hnone. rewrite find_filter in Hnone.
    cbn [committed] in Hnone.
    unfold serve, topup. cbn [body on_error]. rewrite validation_positive, Hv.
    cbn [negb run]. rewrite Hf1.
    cbn [exec run_stmt tx current committed].
    destruct (filter _ (tbl_balance d)) as [|b rest]; [|discriminate].
    cbn [run tl]. rewrite Hf2.
    cbn [exec run_stmt tx current committed put].
    cbn [run trace].
    match goal with
    | |- context [exec ?s0 ?f Begin] =>
        destruct (exec s0 f Begin) as [s' [err|rows]]
    end; cbn [trace]; eauto. }
  split; [exact Hbegan|].
  intros Hfail.
  destruct (topup_cases u v now rb faults s Htx)
    as [(_ & _ & _ & _ & _ & Hh & Hb) | (n & b & _ & _ & _ & _ & Hr)].
  - split; [|exact Hh].
    destruct Hb as [[Hnb _]|Hb].
    + exfalso. fold o in Hnb. destruct Hbegan as [rest Hrest].
      rewrite Hrest in Hnb. cbn in Hnb. discriminate.
    + fold o in Hb. rewrite Hb. unfold ensured_balances. rewrite Hnone.
      reflexivity.
  - fold o in Hr. rewrite Hr in Hfail. cbn in Hfail. congruence.
Qed.

Lemma topup_creates_balance_before_transaction_witness :
  tx new_user = Idle /\
  balance_of (committed new_user) 7 = None /\
  positive_number (JsNumber 5000) = true /\
  no_fault 2 [false; false; false; false; false; true] /\
  (exists rest,
     trace (serve (topup 7 (JsNumber 5000) sample_date sample_bytes)
              [false; false; false; false; false; true] new_user)
     = issued (SelectBalance 7) :: issued (InsertBalance 7) :: issued Begin :: rest) /\
  (http_status
     (response (serve (topup 7 (JsNumber 5000) sample_date sample_bytes)
                  [false; false; false; false; false; true] new_user)) <> 200 ->
   tbl_balance
     (committed (session (serve (topup 7 (JsNumber 5000) sample_date sample_bytes)
                            [false; false; false; false; false; true] new_user)))
   = (tbl_balance (committed new_user) ++ [zero_balance (committed new_user) 7])%list /\
   tbl_trx_history
     (committed (session (serve (topup 7 (JsNumber 5000) sample_date sample_bytes)
                            [false; false; false; false; false; true] new_user)))
   = tbl_trx_history (committed new_user)).
Proof.
  split; [reflexivity|]. split; [reflexivity|]. split; [reflexivity|].
  split; [reflexivity|].
  exact (topup_creates_balance_before_transaction 7 (JsNumber 5000) sample_date
           sample_bytes [false; false; false; false; false; true] new_user
           eq_refl eq_refl eq_refl eq_refl).
Defined.

(** C3, as stated, fails: user 7 has no balance row and tops up 5000;
    the balance update fails inside the transaction.  The zero-value
    row, inserted and committed before [BEGIN], survives the failed
    top-up. *)
Lemma zero_balance_survives_failed_topup :
  let o := serve (topup 7 (JsNumber 5000) sample_date sample_bytes)
             [false; false; false; true] new_user in
  trace o = [issued (SelectBalance 7); issued (InsertBalance 7); issued Begin;
             issued (UpdateBalanceByUser (Int 5000) 7)] /\
  http_status (response o) = 500 /\
  balance_of (committed new_user) 7 = None /\
  committed (session o) = mkDb [7] [mkBalance 1 7 0] catalog [].
Proof. vm_compute. repeat split. Qed.

(** ** The ledger rows *)



(** ** Requests served one after another *)

Lemma reads_leave_session u l o faults s :
  tx s = Idle ->
  session (serve (get_balance u) faults s) = s /\
  session (serve (history u l o) faults s) = s.
Proof.
  intros Htx. destruct s as [d t c]. cbn [tx] in Htx. subst t.
  split.
  - unfold serve, get_balance. cbn [body on_error run].
    destruct (hd false faults); cbn [exec run_stmt ends_block abort tx current committed].
    + reflexivity.
    + destruct (filter _ _); reflexivity.
  - unfold serve, history. cbn [body on_error run].
    destruct (hd false faults); cbn [exec ends_block abort tx]; [reflexivity|].
    destruct (optional_int l) as [[|n]|], (optional_int o) as [[|m]|];
      cbn [run_stmt abort tx current committed]; try reflexivity.
    all: try (destruct (order_by_created_desc _); reflexivity).
    destruct ((0 <=? n) && (0 <=? m)); [|reflexivity].
    destruct (firstn _ _); reflexivity.
Qed.

Lemma key_after_update (g : BalanceRow -> BalanceRow) rows :
  (forall x, balance_id (g x) = balance_id x) ->
  NoDup (map balance_id rows) -> NoDup (map balance_id (map g rows)).
Proof.
  intros Hg Hnd. rewrite map_map.
  erewrite map_ext; [exact Hnd|]. intros x. apply Hg.
Qed.

Lemma mutation_well_formed m now rb faults s :
  tx s = Idle -> balance_key (committed s) ->
  Forall signed_ok (tbl_trx_history (committed s)) ->
  well_formed (session (serve (mutation m now rb) faults s)).
Proof.
  intros Htx Hkey Hrows. unfold well_formed, balance_key, settled.
  destruct m as [u v|u sc]; cbn [mutation].
  - destruct (topup_cases u v now rb faults s Htx)
      as [(_ & _ & Hset & _ & _ & Hh & Hb) | (n & b & _ & _ & _ & Hs & _)].
    + split; [exact Hset|]. split; [|now rewrite Hh].
      destruct Hb as [[_ ->]| ->]; [exact Hkey | now apply ensured_balances_key].
    + rewrite Hs. cbn [tx committed tbl_balance tbl_trx_history].
      split; [now left|]. split.
      * apply key_after_update; [|now apply ensured_balances_key].
        intros x. destruct (user_id x =? u); reflexivity.
      * apply Forall_app. split; [exact Hrows|].
        constructor; [unfold signed_ok; cbn; lia | constructor].
  - destruct (transaction_cases u sc now rb faults s Htx)
      as [(_ & Hc & _ & Hset) | (code & b & sv & _ & _ & _ & _ & _ & Hs & _)].
    + rewrite Hc. auto.
    + rewrite Hs. cbn [tx committed tbl_balance tbl_trx_history].
      split; [now left|]. split.
      * apply key_after_update; [|exact Hkey].
        intros x. destruct (balance_id x =? balance_id b); reflexivity.
      * apply Forall_app. split; [exact Hrows|].
        constructor; [unfold signed_ok; cbn; lia | constructor].
Qed.

Lemma serve_well_formed r faults s :
  well_formed s -> well_formed (session (serve (handler r) faults s)).
Proof.
  intros (Hset & Hkey & Hrows).
  destruct Hset as [Htx|Htx].
  - destruct r as [u|u v now rb|u sc now rb|u l o]; cbn [handler].
    + rewrite (proj1 (reads_leave_session u None None faults s Htx)).
      repeat split; auto. now left.
    + exact (mutation_well_formed (TopUp u v) now rb faults s Htx Hkey Hrows).
    + exact (mutation_well_formed (Payment u sc) now rb faults s Htx Hkey Hrows).
    + rewrite (proj2 (reads_leave_session u l o faults s Htx)).
      repeat split; auto. now left.
  - rewrite (proj1 (aborted_session_refuses r faults s Htx)).
    repeat split; auto. now right.
Qed.

(** Served one after another, requests keep the session well formed. *)
Theorem serve_all_well_formed requests :
  forall s, well_formed s -> well_formed (serve_all requests s).
Proof.
  induction requests as [|[[r t] faults] rest IH]; intros s Hs; cbn [serve_all].
  - exact Hs.
  - apply IH, serve_well_formed. exact Hs.
Qed.

(** ** Payment *)

(** C5.  A payment whose service costs more than the balance holds is
    answered with "Saldo tidak cukup" (status 208, HTTP 400) after the
    two reads; the session, and with it the balance and the history, is
    exactly what it was. *)
Theorem payment_insufficient_funds u code now rb s faults b sv :
  tx s = Idle -> no_fault 2 faults -> code <> "" ->
  balance_of (committed s) u = Some b ->
  service_of (committed s) code = Some sv ->
  balance_value b < service_tariff sv ->
  serve (transaction u (Some code) now rb) faults s
  = mkOutcome s insufficient_funds
      [issued (SelectBalance u); issued (SelectService code)].
Proof.
  intros Htx Hf Hc Hb Hs Hlt.
  destruct (filter_of_find _ _ _ Hb) as [rb' Eb].
  destruct (filter_of_find _ _ _ Hs) as [rs' Es].
  apply no_fault_head in Hf as [Hf1 Hf].
  apply no_fault_head in Hf as [Hf2 _].
  destruct s as [d t c]. cbn [tx committed] in *. subst t.
  unfold serve, transaction. cbn [body on_error].
  destruct code as [|c0 code]; [congruence|].
  cbn [String.length Nat.eqb].
  cbn [run]. rewrite Hf1.
  cbn [exec run_stmt tx current committed]. rewrite Eb.
  cbn [run tl]. rewrite Hf2.
  cbn [exec run_stmt tx current committed]. rewrite Es.
  apply Z.ltb_lt in Hlt. rewrite Hlt. reflexivity.
Qed.

Lemma payment_insufficient_funds_witness :
  tx spent = Idle /\ no_fault 2 [] /\ "Y" <> "" /\
  balance_of (committed spent) 7 = Some (mkBalance 1 7 1000) /\
  service_of (committed spent) "Y" = Some (mkService "Y" "Listrik" 5000) /\
  1000 < 5000 /\
  serve (transaction 7 (Some "Y") sample_date sample_bytes) [] spent
  = mkOutcome spent insufficient_funds
      [issued (SelectBalance 7); issued (SelectService "Y")].
Proof.
  assert (Hc : "Y" <> "") by discriminate.
  assert (Hlt : 1000 < 5000) by lia.
  split; [reflexivity|]. split; [reflexivity|]. split; [exact Hc|].
  split; [reflexivity|]. split; [reflexivity|]. split; [exact Hlt|].
  exact (payment_insufficient_funds 7 "Y" sample_date sample_bytes spent []
           (mkBalance 1 7 1000) (mkService "Y" "Listrik" 5000)
           eq_refl eq_refl Hc eq_refl eq_refl Hlt).
Defined.

(** C7.  A payment that succeeds found a balance row and the service;
    afterwards the balance is the prior balance minus the tariff, the
    history has one more row, of type PAYMENT, with the tariff as amount
    and the service name as description, and the response carries the
    invoice number, the service name, the tariff and the creation date
    of that row. *)
Theorem payment_success u sc now rb faults s :
  tx s = Idle ->
  let o := serve (transaction u sc now rb) faults s in
  http_status (response o) = 200 ->
  exists code b sv,
    sc = Some code /\
    balance_of (committed s) u = Some b /\
    service_of (committed s) code = Some sv /\
    let inv := generateInvoiceNumber now rb in
    let h := mkHistory (balance_id b) inv (service_tariff sv) (balance_value b)
               (balance_value b - service_tariff sv) PAYMENT (service_name sv)
               (clock s) in
    balance_of (committed (session o)) u
      = Some (mkBalance (balance_id b) (user_id b)
                (balance_value b - service_tariff sv)) /\
    tbl_trx_history (committed (session o))
      = (tbl_trx_history (committed s) ++ [h])%list /\
    response o
      = mkResponse 200 StatusAbsent (Some "Transaksi berhasil") None
          (DataPayment inv code (service_name sv) "PAYMENT" (service_tariff sv)
             (created_date h)).
Proof.
  intros Htx o Hok.
  destruct (transaction_cases u sc now rb faults s Htx)
    as [(Hno & _) | (code & b & sv & Hsc & _ & Hb & Hsv & Hle & Hs & Hr & _)];
    [contradiction|].
  exists code, b, sv. fold o in Hs, Hr.
  repeat split; try assumption.
  - rewrite Hs. unfold balance_of in *. cbn [committed tbl_balance].
    erewrite find_map_update; [|
      intros x; destruct (balance_id x =? balance_id b); reflexivity | exact Hb].
    rewrite Z.eqb_refl. reflexivity.
  - rewrite Hs. reflexivity.
Qed.

Lemma payment_success_witness :
  tx funded = Idle /\
  http_status
    (response (serve (transaction 7 (Some "X") sample_date sample_bytes) [] funded))
    = 200 /\
  exists code b sv,
    Some "X" = Some code /\
    balance_of (committed funded) 7 = Some b /\
    service_of (committed funded) code = Some sv /\
    balance_of
      (committed (session (serve (transaction 7 (Some "X") sample_date sample_bytes)
                             [] funded))) 7
      = Some (mkBalance (balance_id b) (user_id b)
                (balance_value b - service_tariff sv)) /\
    tbl_trx_history
      (committed (session (serve (transaction 7 (Some "X") sample_date sample_bytes)
                             [] funded)))
      = (tbl_trx_history (committed funded)
           ++ [mkHistory (balance_id b)
                 (generateInvoiceNumber sample_date sample_bytes)
                 (service_tariff sv) (balance_value b)
                 (balance_value b - service_tariff sv) PAYMENT (service_name sv)
                 (clock funded)])%list /\
    response (serve (transaction 7 (Some "X") sample_date sample_bytes) [] funded)
      = mkResponse 200 StatusAbsent (Some "Transaksi berhasil") None
          (DataPayment (generateInvoiceNumber sample_date sample_bytes) code
             (service_name sv) "PAYMENT" (service_tariff sv) (clock funded)).
Proof.
  split; [reflexivity|]. split; [reflexivity|].
  exact (payment_success 7 (Some "X") sample_date sample_bytes [] funded
           eq_refl eq_refl).
Defined.

(** ** Top-up validation *)

(** C6, as amended.  A top-up whose amount is missing, null, false,
    zero or negative is answered with the amount error (status "102",
    HTTP 400) and sends no statement to the store; every amount that is
    a number above zero, whole or not, passes the validation and the
    store is read. *)
Theorem topup_validation u v now rb faults s :
  (positive_number v = false ->
   serve (topup u v now rb) faults s = mkOutcome s invalid_amount []) /\
  (positive_number v = true ->
   exists rest, trace (serve (topup u v now rb) faults s)
                = issued (SelectBalance u) :: rest).
Proof.
  unfold serve, topup. cbn [body on_error]. rewrite validation_positive.
  split; intros Hv; rewrite Hv; cbn [negb run].
  - reflexivity.
  - destruct (exec s (hd false faults) (SelectBalance u)) as [s' [err|rows]];
      cbn [trace]; eauto.
Qed.

Lemma topup_validation_witness :
  positive_number (JsNumber (-5)) = false /\
  serve (topup 7 (JsNumber (-5)) sample_date sample_bytes) [] funded
  = mkOutcome funded invalid_amount [] /\
  positive_number (JsNumber (5 # 2)) = true /\
  exists rest, trace (serve (topup 7 (JsNumber (5 # 2)) sample_date sample_bytes)
                        [] funded)
               = issued (SelectBalance 7) :: rest.
Proof.
  split; [reflexivity|].
  split;
    [exact (proj1 (topup_validation 7 (JsNumber (-5)) sample_date sample_bytes
                     [] funded) eq_refl)|].
  split; [reflexivity|].
  exact (proj2 (topup_validation 7 (JsNumber (5 # 2)) sample_date sample_bytes
                  [] funded) eq_refl).
Defined.

(** C6, as stated, fails: 2.5 is not a positive integer, yet the top-up
    is not answered with the amount error, and the store is read and
    written. *)
Lemma topup_accepts_fraction :
  let o := serve (topup 7 (JsNumber (5 # 2)) sample_date sample_bytes) [] funded in
  positive_integer (JsNumber (5 # 2)) = false /\
  response o <> invalid_amount /\
  exists rest,
    trace o = issued (SelectBalance 7) :: issued Begin
                :: issued (UpdateBalanceByUser (Int 5002) 7) :: rest.
Proof.
  vm_compute. split; [reflexivity|]. split; [discriminate|].
  eexists. reflexivity.
Qed.

(** ** History listing *)

Lemma insert_desc_perm v l : Permutation (insert_desc v l) (v :: l).
Proof.
  induction l as [|x l IH]; cbn [insert_desc]; [reflexivity|].
  destruct (created_on x <=? created_on v); [reflexivity|].
  rewrite IH. apply perm_swap.
Qed.

Lemma order_by_created_desc_perm l : Permutation (order_by_created_desc l) l.
Proof.
  induction l as [|v l IH]; cbn; [constructor|].
  rewrite insert_desc_perm. now constructor.
Qed.

Lemma insert_desc_sorted v l : newest_first l -> newest_first (insert_desc v l).
Proof.
  unfold newest_first.
  induction l as [|x l IH]; intros Hs; cbn [insert_desc].
  - repeat constructor.
  - inversion Hs as [|? ? Hl Hx]; subst.
    destruct (created_on x <=? created_on v) eqn:E.
    + apply Z.leb_le in E. constructor; [exact Hs|].
      constructor; [exact E|].
      eapply Forall_impl; [|exact Hx]. intros a Ha. cbv beta in *. lia.
    + apply Z.leb_gt in E. constructor; [apply IH; exact Hl|].
      apply (Permutation_Forall (Permutation_sym (insert_desc_perm v l))).
      constructor; [lia | exact Hx].
Qed.

Lemma order_by_created_desc_sorted l : newest_first (order_by_created_desc l).
Proof.
  induction l as [|v l IH]; cbn.
  - constructor.
  - apply insert_desc_sorted, IH.
Qed.

(** The listing from an idle session, by the shape of the two query
    parameters. *)
Lemma history_run u lim off faults s :
  tx s = Idle -> hd false faults = false ->
  serve (history u lim off) faults s =
  let rows := order_by_created_desc (history_of_user (committed s) u) in
  match optional_int lim, optional_int off with
  | Some (Int n), Some (Int m) =>
      if (0 <=? n) && (0 <=? m)
      then mkOutcome s (listing (firstn (Z.to_nat n) (skipn (Z.to_nat m) rows)))
             [issued (SelectHistory u (Some (Int n, Int m)))]
      else mkOutcome s (catch_status_100 "LIMIT and OFFSET must not be negative")
             [issued (SelectHistory u (Some (Int n, Int m)))]
  | Some l, Some o =>
      mkOutcome s (catch_status_100 "invalid input syntax for type bigint")
        [issued (SelectHistory u (Some (l, o)))]
  | _, _ => mkOutcome s (listing rows) [issued (SelectHistory u None)]
  end.
Proof.
  intros Htx Hf. destruct s as [d t c]. simpl in Htx. subst t.
  unfold serve, history. cbn [body on_error run]. rewrite Hf.
  destruct (optional_int lim) as [[|n]|], (optional_int off) as [[|m]|];
    cbn [exec run_stmt tx current committed abort];
    try reflexivity.
  all: try (destruct (order_by_created_desc _); reflexivity).
  destruct ((0 <=? n) && (0 <=? m)); [|reflexivity].
  destruct (firstn _ _); reflexivity.
Qed.




Example history_pages :
  map created_on
    match data (response (serve (history 7 None None) [] spent)) with
    | DataHistory rows => rows
    | _ => []
    end = [200; 100] /\
  map created_on
    match data (response (serve (history 7 (Some "1") (Some "1")) [] spent)) with
    | DataHistory rows => rows
    | _ => []
    end = [100] /\
  response (serve (history 7 (Some "5") (Some "2")) [] spent) = no_transactions.
Proof. vm_compute. repeat split. Qed.

(** C10.  A request that carries only a limit, or only an offset, is
    served exactly as the request that carries neither: no [LIMIT] or
    [OFFSET] reaches the store and the whole ordered list is
    returned. *)
Theorem history_single_parameter_ignored u text faults s :
  serve (history u (Some text) None) faults s
    = serve (history u None None) faults s /\
  serve (history u None (Some text)) faults s
    = serve (history u None None) faults s /\
  (tx s = Idle -> hd false faults = false ->
   exists ordered,
     Permutation ordered (history_of_user (committed s) u) /\
     newest_first ordered /\
     serve (history u None None) faults s
       = mkOutcome s (listing ordered) [issued (SelectHistory u None)]).
Proof.
  split; [|split].
  - unfold history. destruct (optional_int (Some text)); reflexivity.
  - unfold history. destruct (optional_int (Some text)); reflexivity.
  - intros Htx Hf.
    exists (order_by_created_desc (history_of_user (committed s) u)).
    split; [apply order_by_created_desc_perm|].
    split; [apply order_by_created_desc_sorted|].
    rewrite history_run by assumption. reflexivity.
Qed.

Lemma history_single_parameter_ignored_witness :
  serve (history 7 (Some "1") None) [] spent = serve (history 7 None None) [] spent /\
  serve (history 7 None (Some "1")) [] spent = serve (history 7 None None) [] spent /\
  (tx spent = Idle -> hd false [] = false ->
   exists ordered,
     Permutation ordered (history_of_user (committed spent) 7) /\
     newest_first ordered /\
     serve (history 7 None None) [] spent
       = mkOutcome spent (listing ordered) [issued (SelectHistory 7 None)]).
Proof. exact (history_single_parameter_ignored 7 "1" [] spent). Defined.

(** ** Requests in flight together *)

Ltac safe :=
  repeat match goal with
    | |- Safe (Ret _) => constructor
    | |- Safe (Throw _) => constructor
    | |- Safe (Query _ _) =>
        apply safe_query; [cbn [stmt_safe]; try exact I | intros ?]
    | |- Safe (match ?x with _ => _ end) => destruct x eqn:?
    end.

(** Every handler is safe: the only payment row it can insert is the
    one [POST /transaction] builds after its balance test. *)
Lemma handler_safe r : Safe (body (handler r)).
Proof.
  destruct r as [u|u v now rb|u sc now rb|u l o]; cbn [handler].
  - unfold get_balance; cbn [body]. safe.
  - unfold topup; cbn [body]. safe.
  - unfold transaction; cbn [body]. safe.
    intros a v Ha Hv.
    apply integer_param_inject in Ha as [-> _].
    apply integer_of_Int in Hv as [-> _].
    match goal with H : (_ <? _) = false |- _ => apply Z.ltb_ge in H end.
    split; [assumption | reflexivity].
  - unfold history; cbn [body]. safe.
Qed.

Section Covered.

Variable s : Session.
Hypothesis Hs : ledger_covered s.

Lemma ledger_covered_abort : ledger_covered (abort s).
Proof.
  revert Hs. unfold ledger_covered, abort.
  destruct s as [d [|w|] c]; cbn; tauto.
Qed.

Lemma ledger_covered_end : ledger_covered (end_block s).
Proof.
  revert Hs. unfold ledger_covered, end_block.
  destruct s as [d t c]; cbn; tauto.
Qed.

Lemma ledger_covered_put d :
  Forall covered (tbl_trx_history d) -> ledger_covered (put s d).
Proof.
  revert Hs. unfold ledger_covered, put.
  destruct s as [d0 [|w|] c]; cbn; tauto.
Qed.

Lemma ledger_covered_current : Forall covered (tbl_trx_history (current s)).
Proof.
  revert Hs. unfold ledger_covered, current.
  destruct s as [d0 [|w|] c]; cbn; tauto.
Qed.

Lemma run_stmt_covered {R} (q : Stmt R) :
  stmt_safe q -> ledger_covered (fst (run_stmt s q)).
Proof.
  intros Hq. pose proof ledger_covered_current as Hcur.
  pose proof ledger_covered_abort as Hab.
  pose proof ledger_covered_end as Hend.
  pose proof ledger_covered_put as Hput.
  destruct q; cbn [run_stmt fst].
  - revert Hs. unfold ledger_covered. destruct s as [d [|w|] c];
      cbn [tx committed fst clock end_block]; intuition.
  - revert Hs. unfold ledger_covered. destruct s as [d [|w|] c];
      cbn [tx committed fst clock end_block]; intuition.
  - exact Hend.
  - exact Hs.
  - apply Hput; assumption.
  - destruct (integer_of_JsInt newBalance); cbn [fst];
      [apply Hput | apply Hab]; assumption.
  - destruct (integer_of_JsInt newBalance); cbn [fst];
      [apply Hput | apply Hab]; assumption.
  - exact Hs.
  - destruct (integer_param amt) as [a|] eqn:Ea;
      [destruct (integer_of_JsInt after) as [v|] eqn:Ev|];
      [destruct (int4 before)| |]; cbn [fst];
      try (apply Hab; assumption).
    apply Hput. cbn [with_history tbl_trx_history].
    apply Forall_app. split; [assumption|]. constructor; [|constructor].
    unfold covered. cbn. intros ->. cbn in Hq. now apply Hq.
  - destruct page as [[[|l] [|o]]|]; cbn [fst];
      try (apply Hab; assumption); try assumption.
    destruct ((0 <=? l) && (0 <=? o)); cbn [fst]; [assumption | apply Hab].
Qed.

Lemma exec_covered {R} f (q : Stmt R) :
  stmt_safe q -> ledger_covered (fst (exec s f q)).
Proof.
  intros Hq. unfold exec. destruct f.
  - cbn [fst]. destruct (ends_block q);
      [apply ledger_covered_end | apply ledger_covered_abort].
  - destruct (tx s) eqn:Et.
    + now apply run_stmt_covered.
    + now apply run_stmt_covered.
    + destruct q; cbn [fst]; try assumption; apply ledger_covered_end.
Qed.

Lemma step_covered t :
  Safe (body t) ->
  ledger_covered (fst (Sched.step s t)) /\ Safe (body (snd (Sched.step s t))).
Proof.
  intros Ht. unfold Sched.step.
  destruct t as [p catch]. cbn [body on_error] in *.
  destruct Ht as [r|msg|R q k Hq Hk].
  - cbn. split; [assumption | constructor].
  - cbn. split; [assumption | constructor].
  - pose proof (exec_covered false q Hq) as He.
    destruct (exec s false q) as [s' [err|rows]]; cbn [fst snd] in *.
    + split; [assumption | constructor].
    + split; [assumption|].
      destruct (Hk rows); cbn; constructor; assumption.
Qed.

End Covered.

Lemma replace_nth_safe i t tasks :
  Safe (body t) -> Forall (fun x => Safe (body x)) tasks ->
  Forall (fun x => Safe (body x)) (Sched.replace_nth i t tasks).
Proof.
  intros Ht Hall. revert i. induction Hall as [|x l Hx Hl IH]; intros i.
  - destruct i; constructor.
  - destruct i; cbn; constructor; auto.
Qed.

(** The invariant along a schedule, by induction on the schedule. *)
Lemma interleave_covered schedule :
  forall s tasks,
    ledger_covered s -> Forall (fun t => Safe (body t)) tasks ->
    ledger_covered (fst (Sched.interleave schedule s tasks)).
Proof.
  induction schedule as [|i later IH]; intros s tasks Hs Hall;
    cbn [Sched.interleave].
  - exact Hs.
  - destruct (nth_error tasks i) as [t|] eqn:Et; [|now apply IH].
    assert (Ht : Safe (body t)).
    { rewrite Forall_forall in Hall. eapply Hall, nth_error_In, Et. }
    destruct (step_covered s Hs t Ht) as [Hs' Ht'].
    destruct (Sched.step s t) as [s' t']. cbn [fst snd] in *.
    apply IH; [assumption | now apply replace_nth_safe].
Qed.

(** C2, as amended.  Whatever requests are in flight and however their
    statements interleave, a payment row is committed only with an
    amount (the tariff) that the balance the payment read (its
    [balance_before]) covers, and with [balance_after] the difference:
    no payment commits beyond the balance it read.  (That two requests
    read different balances is not part of this statement.) *)
Theorem payment_commits_within_read_balance schedule s requests :
  ledger_covered s ->
  let final := fst (Sched.interleave schedule s (map handler requests)) in
  forall h, In h (tbl_trx_history (committed final)) -> trx_type h = PAYMENT ->
            amount h <= balance_before h /\
            balance_after h = balance_before h - amount h.
Proof.
  intros Hs final h Hin Hty.
  assert (Hfinal : ledger_covered final).
  { apply interleave_covered; [exact Hs|].
    apply Forall_forall. intros t Ht. apply in_map_iff in Ht as (r & <- & _).
    apply handler_safe. }
  destruct Hfinal as [Hc _]. rewrite Forall_forall in Hc. now apply Hc.
Qed.

Lemma payment_commits_within_read_balance_witness :
  ledger_covered funded /\
  In (mkHistory 1 "INV20251105153428-0102" 3000 5000 2000 PAYMENT "Pulsa" 200)
    (tbl_trx_history
       (committed
          (fst (Sched.interleave both_read_first funded
                  (map handler
                     [PostTransaction 7 (Some "X") sample_date sample_bytes;
                      PostTransaction 7 (Some "X") sample_date other_bytes]))))) /\
  PAYMENT = PAYMENT /\
  3000 <= 5000 /\ 2000 = 5000 - 3000.
Proof.
  assert (Hcov : ledger_covered funded).
  { split; [|exact I]. cbn. constructor; [|constructor].
    unfold covered; cbn. intros Hty. discriminate Hty. }
  assert (Hin :
    In (mkHistory 1 "INV20251105153428-0102" 3000 5000 2000 PAYMENT "Pulsa" 200)
      (tbl_trx_history
         (committed
            (fst (Sched.interleave both_read_first funded
                    (map handler
                       [PostTransaction 7 (Some "X") sample_date sample_bytes;
                        PostTransaction 7 (Some "X") sample_date other_bytes])))))).
  { vm_compute. right. right. left. reflexivity. }
  split; [exact Hcov|]. split; [exact Hin|]. split; [reflexivity|].
  exact (payment_commits_within_read_balance both_read_first funded
           [PostTransaction 7 (Some "X") sample_date sample_bytes;
            PostTransaction 7 (Some "X") sample_date other_bytes]
           Hcov _ Hin eq_refl).
Defined.

(** C2, as stated, fails: user 7 holds 5000 and two payments of 3000 are
    in flight.  Both read the balance before either writes; both read
    5000, both pass the balance test, both commit.  The second commits
    a row [5000 -> 2000] when the stored balance is already 2000, less
    than the tariff; 6000 is paid out of 5000. *)
Lemma interleaved_payments_share_the_read :
  let final := Sched.interleave both_read_first funded
                 [first_payment; second_payment] in
  map (fun t => option_map http_status (Sched.finished t)) (snd final)
    = [Some 200; Some 200] /\
  map (fun h => (trx_type h, amount h, balance_before h, balance_after h))
    (tbl_trx_history (committed (fst final)))
    = [(TOPUP, 5000, 0, 5000); (PAYMENT, 3000, 5000, 2000);
       (PAYMENT, 3000, 5000, 2000)] /\
  balance_of (committed (fst final)) 7 = Some (mkBalance 1 7 2000) /\
  tx (fst final) = Idle.
Proof. vm_compute. repeat split. Qed.

(* ================================================================== *)
(** * Further properties *)
(* ================================================================== *)

(* ================================================================== *)
(** * Further properties *)
(* ================================================================== *)

(** ** Top-up *)

Lemma find_none_filter {A} (f : A -> bool) l :
  find f l = None -> filter f l = [].
Proof.
  rewrite find_filter. destruct (filter f l); [reflexivity | discriminate].
Qed.




(** ** Payment: the rejections before the transaction *)

(** X2.  A user without balance row is told "Belum ada saldo" (status 206,
    HTTP 404) after the one read of the balance; the service is not even
    looked up, and the session is what it was. *)
Theorem payment_requires_balance_row u code now rb faults s :
  tx s = Idle -> hd false faults = false -> code <> "" ->
  balance_of (committed s) u = None ->
  serve (transaction u (Some code) now rb) faults s
  = mkOutcome s no_balance [issued (SelectBalance u)].
Proof.
  intros Htx Hf Hc Hb.
  pose proof (find_none_filter _ _ Hb) as Eb.
  destruct s as [d t c]. cbn [tx committed] in *. subst t.
  unfold serve, transaction. cbn [body on_error].
  destruct code as [|c0 code]; [congruence|].
  cbn [String.length Nat.eqb run]. rewrite Hf.
  cbn [exec run_stmt tx current committed]. rewrite Eb. reflexivity.
Qed.

Lemma payment_requires_balance_row_witness :
  tx new_user = Idle /\ hd false [] = false /\ "nowhere" <> "" /\
  balance_of (committed new_user) 7 = None /\
  serve (transaction 7 (Some "nowhere") sample_date sample_bytes) [] new_user
  = mkOutcome new_user no_balance [issued (SelectBalance 7)].
Proof.
  assert (Hc : "nowhere" <> "") by discriminate.
  split; [reflexivity|]. split; [reflexivity|]. split; [exact Hc|].
  split; [reflexivity|].
  exact (payment_requires_balance_row 7 "nowhere" sample_date sample_bytes []
           new_user eq_refl eq_refl Hc eq_refl).
Defined.

(** X3.  A service code that is not in the catalog is answered with "Service
    tidak terdaftar" (status 207, HTTP 404) after the two reads; the
    session is what it was. *)
Theorem payment_unknown_service u code now rb faults s b :
  tx s = Idle -> no_fault 2 faults -> code <> "" ->
  balance_of (committed s) u = Some b ->
  service_of (committed s) code = None ->
  serve (transaction u (Some code) now rb) faults s
  = mkOutcome s service_not_found
      [issued (SelectBalance u); issued (SelectService code)].
Proof.
  intros Htx Hf Hc Hb Hs.
  destruct (filter_of_find _ _ _ Hb) as [rb' Eb].
  pose proof (find_none_filter _ _ Hs) as Es.
  apply no_fault_head in Hf as [Hf1 Hf].
  apply no_fault_head in Hf as [Hf2 _].
  destruct s as [d t c]. cbn [tx committed] in *. subst t.
  unfold serve, transaction. cbn [body on_error].
  destruct code as [|c0 code]; [congruence|].
  cbn [String.length Nat.eqb run]. rewrite Hf1.
  cbn [exec run_stmt tx current committed]. rewrite Eb.
  cbn [run tl]. rewrite Hf2.
  cbn [exec run_stmt tx current committed]. rewrite Es. reflexivity.
Qed.

Lemma payment_unknown_service_witness :
  tx funded = Idle /\ no_fault 2 [] /\ "Z" <> "" /\
  balance_of (committed funded) 7 = Some (mkBalance 1 7 5000) /\
  service_of (committed funded) "Z" = None /\
  serve (transaction 7 (Some "Z") sample_date sample_bytes) [] funded
  = mkOutcome funded service_not_found
      [issued (SelectBalance 7); issued (SelectService "Z")].
Proof.
  assert (Hc : "Z" <> "") by discriminate.
  split; [reflexivity|]. split; [reflexivity|]. split; [exact Hc|].
  split; [reflexivity|]. split; [reflexivity|].
  exact (payment_unknown_service 7 "Z" sample_date sample_bytes [] funded
           (mkBalance 1 7 5000) eq_refl eq_refl Hc eq_refl eq_refl).
Defined.

(** ** [GET /balance] *)

Lemma get_balance_run u faults s :
  tx s = Idle -> hd false faults = false ->
  serve (get_balance u) faults s
  = mkOutcome s (balance_response (reported_balance (committed s) u))
      [issued (SelectBalance u)].
Proof.
  intros Htx Hf. destruct s as [d t c]. cbn [tx] in Htx. subst t.
  unfold serve, get_balance, reported_balance, balance_of.
  cbn [body on_error run]. rewrite Hf, find_filter.
  cbn [exec run_stmt tx current committed].
  destruct (filter _ _); reflexivity.
Qed.

(** X4.  After a top-up that succeeded, [GET /balance] reports the balance
    the top-up announced in its response. *)
Theorem balance_after_topup u v now rb faults faults' s :
  tx s = Idle -> hd false faults' = false ->
  let o := serve (topup u v now rb) faults s in
  http_status (response o) = 200 ->
  data (response (serve (get_balance u) faults' (session o)))
  = data (response o).
Proof.
  intros Htx Hf o Hok.
  destruct (topup_cases u v now rb faults s Htx)
    as [(Hno & _) | (n & b & Hn & Hpos & Hb & Hs & Hr)]; [contradiction|].
  fold o in Hs, Hr.
  rewrite get_balance_run; [|rewrite Hs; reflexivity | exact Hf].
  rewrite Hr, Hs. cbn [data response balance_response]. do 2 f_equal.
  unfold reported_balance, balance_of. cbn [committed tbl_balance].
  erewrite find_map_update; [| |exact Hb].
  - apply find_some in Hb as [_ Hu]. rewrite Hu. reflexivity.
  - intros x. destruct (user_id x =? u) eqn:E; cbn [set_balance_value user_id];
      rewrite ?E; reflexivity.
Qed.

Lemma balance_after_topup_witness :
  tx funded = Idle /\ hd false [] = false /\
  http_status (response (serve (topup 7 (JsNumber 1500) sample_date sample_bytes)
                           [] funded)) = 200 /\
  data (response (serve (get_balance 7) []
                    (session (serve (topup 7 (JsNumber 1500) sample_date sample_bytes)
                                [] funded))))
  = data (response (serve (topup 7 (JsNumber 1500) sample_date sample_bytes)
                      [] funded)).
Proof.
  split; [reflexivity|]. split; [reflexivity|]. split; [reflexivity|].
  exact (balance_after_topup 7 (JsNumber 1500) sample_date sample_bytes [] []
           funded eq_refl eq_refl eq_refl).
Defined.

(** X5.  After a payment that succeeded, [GET /balance] reports what it
    reported before, less the [total_amount] of the payment response. *)
Theorem balance_after_payment u sc now rb faults faults' s
    inv code name type total created :
  tx s = Idle -> hd false faults' = false ->
  let o := serve (transaction u sc now rb) faults s in
  data (response o) = DataPayment inv code name type total created ->
  data (response (serve (get_balance u) faults' (session o)))
  = DataBalance (Int (reported_balance (committed s) u - total)).
Proof.
  intros Htx Hf o Hdata.
  destruct (transaction_cases u sc now rb faults s Htx)
    as [(Hno & Hc & _) | (code' & b & sv & _ & _ & Hb & _ & _ & Hs & Hr & _)].
  - exfalso. fold o in Hno. revert Hno Hdata. subst o.
    remember (serve (transaction u sc now rb) faults s) as o' eqn:Ho.
    destruct s as [d t c]. cbn [tx] in Htx. subst t.
    unfold transaction in Ho. destruct sc as [c0|]; [|subst; discriminate].
    crunch Ho; subst o'; cbn; intros; try discriminate; congruence.
  - fold o in Hs, Hr. rewrite Hr in Hdata. cbn [data] in Hdata.
    injection Hdata as _ _ _ _ Ht _.
    rewrite get_balance_run; [|rewrite Hs; reflexivity | exact Hf].
    rewrite Hs. cbn [data response balance_response]. do 2 f_equal.
    unfold reported_balance, balance_of in *. cbn [committed tbl_balance].
    erewrite find_map_update; [| |exact Hb].
    + rewrite Hb, Z.eqb_refl. cbn. now rewrite Ht.
    + intros x. destruct (balance_id x =? balance_id b); reflexivity.
Qed.

Lemma balance_after_payment_witness :
  tx funded = Idle /\ hd false [] = false /\
  data (response (serve (transaction 7 (Some "X") sample_date sample_bytes) [] funded))
  = DataPayment "INV20251105153428-A4F2" "X" "Pulsa" "PAYMENT" 3000 200 /\
  data (response (serve (get_balance 7) []
                    (session (serve (transaction 7 (Some "X") sample_date sample_bytes)
                                [] funded))))
  = DataBalance (Int (reported_balance (committed funded) 7 - 3000)).
Proof.
  split; [reflexivity|]. split; [reflexivity|]. split; [reflexivity|].
  exact (balance_after_payment 7 (Some "X") sample_date sample_bytes [] [] funded
           "INV20251105153428-A4F2" "X" "Pulsa" "PAYMENT" 3000 200
           eq_refl eq_refl eq_refl).
Defined.

(** ** What the handlers send *)

Lemma run_issues (P : Issued -> Prop) p catch :
  Issues P p -> forall faults s, Forall P (trace (run p catch faults s)).
Proof.
  induction 1 as [r|msg|R q k Hq Hk IH]; intros faults s; cbn [run trace].
  - constructor.
  - constructor.
  - destruct (exec s (hd false faults) q) as [s' [err|rows]]; cbn [trace].
    + constructor; [exact Hq | constructor].
    + constructor; [exact Hq | apply IH].
Qed.

Ltac issues :=
  repeat match goal with
    | |- Issues _ (Ret _) => constructor
    | |- Issues _ (Throw _) => constructor
    | |- Issues _ (Query _ _) => apply issues_query; [reflexivity | intros ?]
    | |- Issues _ (match ?x with _ => _ end) => destruct x
    end.

(** X6.  No handler ever sends [ROLLBACK], whatever the request, the state of
    the session and the failures of the store. *)
Theorem handlers_never_roll_back r faults s :
  Forall (fun i => is_rollback i = false) (trace (serve (handler r) faults s)).
Proof.
  apply run_issues.
  destruct r as [u|u v now rb|u sc now rb|u l o]; cbn [handler].
  - unfold get_balance; cbn [body]. issues.
  - unfold topup; cbn [body]. issues.
  - unfold transaction; cbn [body]. issues.
  - unfold history; cbn [body]. issues.
Qed.

Lemma exec_select_committed {R} s f (q : Stmt R) :
  is_select (issued q) = true -> committed (fst (exec s f q)) = committed s.
Proof.
  intros Hq. unfold exec. destruct q; try discriminate; destruct f; cbn [ends_block fst].
  all: try (destruct s as [d [|w|] c]; reflexivity).
  destruct s as [d [|w|] c]; cbn [tx run_stmt fst]; try reflexivity.
  all: destruct page as [[[|l] [|o]]|]; try reflexivity.
  all: destruct ((0 <=? l) && (0 <=? o)); reflexivity.
Qed.

Lemma run_selects_committed p catch :
  Issues (fun i => is_select i = true) p ->
  forall faults s, committed (session (run p catch faults s)) = committed s.
Proof.
  induction 1 as [r|msg|R q k Hq Hk IH]; intros faults s; cbn [run session].
  - reflexivity.
  - reflexivity.
  - pose proof (exec_select_committed s (hd false faults) q Hq) as He.
    destruct (exec s (hd false faults) q) as [s' [err|rows]]; cbn [session fst] in *.
    + exact He.
    + rewrite IH. exact He.
Qed.

(** X7.  [GET /balance] and [GET /transaction/history] send nothing but
    [SELECT]s and never change the committed data, in whatever state
    the session is and whatever fails. *)
Theorem read_routes_commit_nothing faults s :
  (forall u, Forall (fun i => is_select i = true)
               (trace (serve (get_balance u) faults s)) /\
             committed (session (serve (get_balance u) faults s)) = committed s) /\
  (forall u l o, Forall (fun i => is_select i = true)
                   (trace (serve (history u l o) faults s)) /\
                 committed (session (serve (history u l o) faults s)) = committed s).
Proof.
  split; intros.
  - assert (Issues (fun i => is_select i = true) (body (get_balance u)))
      by (unfold get_balance; cbn [body]; issues).
    split; [now apply run_issues | now apply run_selects_committed].
  - assert (Issues (fun i => is_select i = true) (body (history u l o)))
      by (unfold history; cbn [body]; issues).
    split; [now apply run_issues | now apply run_selects_committed].
Qed.

(** X8.  Asked twice in a row, the history listing gives the same answer:
    the first call leaves an idle session exactly as it was. *)
Theorem history_twice u l o faults s :
  tx s = Idle ->
  let first := serve (history u l o) faults s in
  session first = s /\ serve (history u l o) faults (session first) = first.
Proof.
  intros Htx first.
  assert (Hs : session first = s)
    by exact (proj2 (reads_leave_session u l o faults s Htx)).
  split; [exact Hs|]. rewrite Hs. reflexivity.
Qed.

Lemma history_twice_witness :
  tx spent = Idle /\
  session (serve (history 7 (Some "1") (Some "0")) [] spent) = spent /\
  serve (history 7 (Some "1") (Some "0")) []
    (session (serve (history 7 (Some "1") (Some "0")) [] spent))
  = serve (history 7 (Some "1") (Some "0")) [] spent.
Proof.
  split; [reflexivity|].
  exact (history_twice 7 (Some "1") (Some "0") [] spent eq_refl).
Defined.



(** X10.  When both parameters are given and one of them is not a numeral or
    is negative, the store refuses the query and the listing fails with
    HTTP 500, rows or no rows. *)
Theorem history_bad_page u limit offset faults s :
  tx s = Idle -> limit <> "" -> offset <> "" ->
  (forall n m, parseInt limit = Int n -> parseInt offset = Int m ->
               n < 0 \/ m < 0) ->
  http_status (response (serve (history u (Some limit) (Some offset)) faults s))
  = 500.
Proof.
  intros Htx Hl Ho Hbad. destruct s as [d t c]. cbn [tx] in Htx. subst t.
  unfold serve, history. cbn [body on_error optional_int].
  destruct limit as [|c1 limit]; [congruence|].
  destruct offset as [|c2 offset]; [congruence|].
  cbn [String.length Nat.eqb run].
  destruct (hd false faults); [reflexivity|].
  cbn [exec tx run_stmt].
  destruct (parseInt (String c1 limit)) as [|n] eqn:En; [reflexivity|].
  destruct (parseInt (String c2 offset)) as [|m] eqn:Em; [reflexivity|].
  destruct (Hbad n m eq_refl eq_refl) as [H|H].
  - assert ((0 <=? n) = false) as -> by now apply Z.leb_gt. reflexivity.
  - assert ((0 <=? m) = false) as -> by now apply Z.leb_gt.
    rewrite andb_false_r. reflexivity.
Qed.

Lemma history_bad_page_witness :
  tx spent = Idle /\ "abc" <> "" /\ "0" <> "" /\
  (forall n m, parseInt "abc" = Int n -> parseInt "0" = Int m -> n < 0 \/ m < 0) /\
  http_status (response (serve (history 7 (Some "abc") (Some "0")) [] spent)) = 500.
Proof.
  assert (H1 : "abc" <> "") by discriminate.
  assert (H2 : "0" <> "") by discriminate.
  assert (H3 : forall n m, parseInt "abc" = Int n -> parseInt "0" = Int m ->
                           n < 0 \/ m < 0) by (intros n m H; discriminate H).
  split; [reflexivity|]. split; [exact H1|]. split; [exact H2|]. split; [exact H3|].
  exact (history_bad_page 7 "abc" "0" [] spent eq_refl H1 H2 H3).
Defined.

(** ** A failure inside the transaction *)





(** ** The balance as the sum of the ledger *)



Lemma nodup_map_injective {A B} (f : A -> B) rows x y :
  NoDup (map f rows) -> In x rows -> In y rows -> f x = f y -> x = y.
Proof.
  induction rows as [|z rows IH]; cbn; [tauto|].
  intros Hnd Hx Hy Heq. inversion Hnd as [|? ? Hnotin Hnd']; subst.
  destruct Hx as [->|Hx], Hy as [->|Hy]; auto.
  - exfalso. apply Hnotin. rewrite Heq. now apply in_map.
  - exfalso. apply Hnotin. rewrite <- Heq. now apply in_map.
Qed.

Lemma map_map_same {A B} (f : A -> B) (g : A -> A) rows :
  (forall x, f (g x) = f x) -> map f (map g rows) = map f rows.
Proof. intros H. rewrite map_map. apply map_ext, H. Qed.












(** ** Invoice numbers: what they determine *)

Lemma string_length_append a b :
  String.length (a ++ b)%string = (String.length a + String.length b)%nat.
Proof. induction a as [|c a IH]; cbn; [reflexivity | now rewrite IH]. Qed.

Lemma string_append_split a a' b b' :
  String.length a = String.length a' ->
  (a ++ b)%string = (a' ++ b')%string -> a = a' /\ b = b'.
Proof.
  revert a'. induction a as [|c a IH]; intros [|c' a'] Hlen Heq;
    try discriminate.
  - auto.
  - cbn in Heq, Hlen. injection Heq as -> Heq. injection Hlen as Hlen.
    destruct (IH a' Hlen Heq) as [-> ->]. auto.
Qed.

Lemma digits_of_same n s v w : digits_of n s v -> digits_of n s w -> v = w.
Proof. intros (_ & _ & Hv) (_ & _ & Hw). congruence. Qed.

Lemma byte_value_bound b : 0 <= byte_value b < 256.
Proof.
  unfold byte_value. pose proof (Byte.to_N_bounded b). lia.
Qed.

Lemma byte_value_injective a b : byte_value a = byte_value b -> a = b.
Proof.
  unfold byte_value. intros H. apply N2Z.inj in H.
  pose proof (Byte.of_to_N a) as Ha. pose proof (Byte.of_to_N b) as Hb.
  rewrite H in Ha. congruence.
Qed.

(** The parts of an invoice number of a four-digit year. *)
Lemma invoice_parts now b1 b2 :
  calendar now -> 1000 <= getFullYear now <= 9999 ->
  generateInvoiceNumber now [b1; b2]
  = ("INV" ++ (toString (getFullYear now)
               ++ padStart 2 "0" (toString (getMonth now + 1))
               ++ padStart 2 "0" (toString (getDate now))
               ++ padStart 2 "0" (toString (getHours now))
               ++ padStart 2 "0" (toString (getMinutes now))
               ++ padStart 2 "0" (toString (getSeconds now)))
        ++ "-" ++ toUpperCase (buffer_hex [b1; b2]))%string /\
  digits_of 4 (toString (getFullYear now)) (getFullYear now) /\
  digits_of 2 (padStart 2 "0" (toString (getMonth now + 1))) (getMonth now + 1) /\
  digits_of 2 (padStart 2 "0" (toString (getDate now))) (getDate now) /\
  digits_of 2 (padStart 2 "0" (toString (getHours now))) (getHours now) /\
  digits_of 2 (padStart 2 "0" (toString (getMinutes now))) (getMinutes now) /\
  digits_of 2 (padStart 2 "0" (toString (getSeconds now))) (getSeconds now).
Proof.
  intros (Hm & Hd & Hh & Hi & Hs) Hy.
  split; [reflexivity|].
  split; [apply four_digits; lia|].
  repeat split; apply two_digits; lia.
Qed.

(** X16.  Two invoice numbers generated in four-digit years are equal only
    when they were generated in the same second with the same two
    random bytes: the number determines the timestamp and the bytes,
    and nothing else tells two invoices apart. *)
Theorem generateInvoiceNumber_collision d1 d2 a1 a2 b1 b2 :
  calendar d1 -> calendar d2 ->
  1000 <= getFullYear d1 <= 9999 -> 1000 <= getFullYear d2 <= 9999 ->
  (generateInvoiceNumber d1 [a1; a2] = generateInvoiceNumber d2 [b1; b2]
   <-> d1 = d2 /\ a1 = b1 /\ a2 = b2).
Proof.
  intros C1 C2 Y1 Y2. split; [|intros (-> & -> & ->); reflexivity].
  intros Heq.
  destruct (invoice_parts d1 a1 a2 C1 Y1) as (E1 & Dy1 & Dm1 & Dd1 & Dh1 & Di1 & Ds1).
  destruct (invoice_parts d2 b1 b2 C2 Y2) as (E2 & Dy2 & Dm2 & Dd2 & Dh2 & Di2 & Ds2).
  rewrite E1, E2 in Heq. clear E1 E2.
  destruct (random_part_format a1 a2) as (La & _ & Pa).
  destruct (random_part_format b1 b2) as (Lb & _ & Pb).
  cbv zeta in *.
  apply string_append_split in Heq as [_ Heq]; [|reflexivity].
  apply string_append_split in Heq as [Hts Hsfx].
  2:{ rewrite !string_length_append.
      destruct Dy1 as [-> _], Dm1 as [-> _], Dd1 as [-> _], Dh1 as [-> _],
               Di1 as [-> _], Ds1 as [-> _].
      destruct Dy2 as [-> _], Dm2 as [-> _], Dd2 as [-> _], Dh2 as [-> _],
               Di2 as [-> _], Ds2 as [-> _].
      reflexivity. }
  apply string_append_split in Hsfx as [_ Hhex]; [|reflexivity].
  rewrite Hhex in Pa.
  assert (Hbytes : 256 * byte_value a1 + byte_value a2
                   = 256 * byte_value b1 + byte_value b2) by congruence.
  pose proof (byte_value_bound a1). pose proof (byte_value_bound a2).
  pose proof (byte_value_bound b1). pose proof (byte_value_bound b2).
  assert (Ha1 : a1 = b1) by (apply byte_value_injective; lia).
  assert (Ha2 : a2 = b2) by (apply byte_value_injective; lia).
  apply string_append_split in Hts as [Hy Hts];
    [|destruct Dy1 as [-> _], Dy2 as [-> _]; reflexivity].
  apply string_append_split in Hts as [Hm Hts];
    [|destruct Dm1 as [-> _], Dm2 as [-> _]; reflexivity].
  apply string_append_split in Hts as [Hd Hts];
    [|destruct Dd1 as [-> _], Dd2 as [-> _]; reflexivity].
  apply string_append_split in Hts as [Hh Hts];
    [|destruct Dh1 as [-> _], Dh2 as [-> _]; reflexivity].
  apply string_append_split in Hts as [Hi Hs];
    [|destruct Di1 as [-> _], Di2 as [-> _]; reflexivity].
  rewrite Hy in Dy1. rewrite Hm in Dm1. rewrite Hd in Dd1.
  rewrite Hh in Dh1. rewrite Hi in Di1. rewrite Hs in Ds1.
  pose proof (digits_of_same _ _ _ _ Dy1 Dy2) as Ey.
  pose proof (digits_of_same _ _ _ _ Dm1 Dm2) as Em.
  pose proof (digits_of_same _ _ _ _ Dd1 Dd2) as Ed.
  pose proof (digits_of_same _ _ _ _ Dh1 Dh2) as Eh.
  pose proof (digits_of_same _ _ _ _ Di1 Di2) as Ei.
  pose proof (digits_of_same _ _ _ _ Ds1 Ds2) as Es.
  split; [|auto].
  destruct d1, d2. cbn in *. f_equal; lia.
Qed.

Lemma generateInvoiceNumber_collision_witness :
  calendar sample_date /\ calendar sample_date /\
  1000 <= getFullYear sample_date <= 9999 /\
  1000 <= getFullYear sample_date <= 9999 /\
  (generateInvoiceNumber sample_date [Byte.xa4; Byte.xf2]
   = generateInvoiceNumber sample_date [Byte.x01; Byte.x02]
   <-> sample_date = sample_date /\ Byte.xa4 = Byte.x01 /\ Byte.xf2 = Byte.x02).
Proof.
  assert (C : calendar sample_date) by (unfold calendar; simpl; lia).
  assert (Y : 1000 <= getFullYear sample_date <= 9999) by (simpl; lia).
  split; [exact C|]. split; [exact C|]. split; [exact Y|]. split; [exact Y|].
  exact (generateInvoiceNumber_collision sample_date sample_date Byte.xa4 Byte.xf2
           Byte.x01 Byte.x02 C C Y Y).
Defined.

(** X17.  In a four-digit year an invoice number is 22 characters long. *)
Theorem generateInvoiceNumber_length now b1 b2 :
  calendar now -> 1000 <= getFullYear now <= 9999 ->
  String.length (generateInvoiceNumber now [b1; b2]) = 22%nat.
Proof.
  intros C Y.
  destruct (invoice_parts now b1 b2 C Y) as (E & Dy & Dm & Dd & Dh & Di & Ds).
  destruct (random_part_format b1 b2) as (L & _ & _). cbv zeta in L.
  rewrite E, !string_length_append.
  destruct Dy as [-> _], Dm as [-> _], Dd as [-> _], Dh as [-> _],
           Di as [-> _], Ds as [-> _].
  rewrite L. reflexivity.
Qed.

Lemma generateInvoiceNumber_length_witness :
  calendar sample_date /\ 1000 <= getFullYear sample_date <= 9999 /\
  String.length (generateInvoiceNumber sample_date sample_bytes) = 22%nat.
Proof.
  assert (C : calendar sample_date) by (unfold calendar; simpl; lia).
  assert (Y : 1000 <= getFullYear sample_date <= 9999) by (simpl; lia).
  split; [exact C|]. split; [exact Y|].
  exact (generateInvoiceNumber_length sample_date Byte.xa4 Byte.xf2 C Y).
Defined.

(** ** Accounts *)

Import Accounts.

Example ana_registers_and_logs_in :
  let lib := sample_libraries in
  users_after (serve 50 ana [] []) = [ana_row] /\
  response (serve 100 (PostLogin (Some "ana@mail.id") (Some "rahasia8")) [] [ana_row])
    = logged_in ana_token /\
  response (serve 100 (PostLogin (Some "ana@mail.id") (Some "rahasia9")) [] [ana_row])
    = bad_credentials /\
  response (serve 200 (GetProfile (Some ("Bearer " ++ ana_token))) [] [ana_row])
    = mkResponse 200 0 "Sukses" (DataProfile "ana@mail.id" "Ana" "Putri" None) /\
  response (serve 43300 (GetProfile (Some ("Bearer " ++ ana_token))) [] [ana_row])
    = invalid_token 403 /\
  response (serve 200 (GetProfile (Some ana_token)) [] [ana_row])
    = invalid_token 401.
Proof. vm_compute. repeat split. Qed.

Lemma split_no_space s : no_space s = true -> split " " s = [s].
Proof.
  induction s as [|c s IH]; cbn; [reflexivity|].
  destruct (Ascii.eqb c " "); cbn; [discriminate|].
  intros H. rewrite (IH H). reflexivity.
Qed.

Lemma split_word w rest :
  no_space w = true -> split " " (w ++ " " ++ rest) = w :: split " " rest.
Proof.
  induction w as [|c w IH]; cbn in *.
  - reflexivity.
  - destruct (Ascii.eqb c " "); cbn; [discriminate|].
    intros H. rewrite (IH H). reflexivity.
Qed.

Lemma split_second scheme token :
  no_space scheme = true -> no_space token = true ->
  (forall rest,
      nth_error (split " " (scheme ++ " " ++ token ++ " " ++ rest)) 1 = Some token) /\
  nth_error (split " " (scheme ++ " " ++ token)) 1 = Some token.
Proof.
  intros Hs Ht. split; [intros rest|].
  - rewrite (split_word scheme _ Hs). cbn [nth_error].
    rewrite (split_word token _ Ht). reflexivity.
  - rewrite (split_word scheme _ Hs). cbn [nth_error].
    rewrite (split_no_space token Ht). reflexivity.
Qed.

Lemma token_of_nonempty c header :
  token_of (Some (String c header)) = nth_error (split " " (String c header)) 1.
Proof. reflexivity. Qed.

Lemma append_space_nonempty scheme tail :
  exists c header, (scheme ++ " " ++ tail)%string = String c header.
Proof. destruct scheme as [|c scheme]; cbn; eauto. Qed.

Section AccountsFacts.

Context {lib : Libraries}.

(** X18.  [verifyToken] takes the second word of the header for the token,
    whatever the first word is and whatever follows the second: the
    header is admitted exactly when [jwt.verify] accepts that word, and
    refused with 403 otherwise. *)
Theorem verifyToken_reads_second_word now scheme token rest :
  no_space scheme = true -> no_space token = true -> token <> "" ->
  let verdict :=
    match verify now token with
    | Some user => inr user
    | None => inl (invalid_token 403)
    end in
  verifyToken now (Some (scheme ++ " " ++ token)) = verdict /\
  verifyToken now (Some (scheme ++ " " ++ token ++ " " ++ rest)) = verdict.
Proof.
  intros Hs Ht Hne verdict.
  destruct (split_second scheme token Hs Ht) as [Hrest Hend].
  assert (Htruthy : truthy (Some token) = true)
    by (destruct token; [contradiction|reflexivity]).
  split; unfold verifyToken.
  - destruct (append_space_nonempty scheme token) as (c & header & E).
    rewrite E, token_of_nonempty, <- E, Hend, Htruthy. reflexivity.
  - destruct (append_space_nonempty scheme (token ++ " " ++ rest)) as (c & header & E).
    rewrite E, token_of_nonempty, <- E, Hrest, Htruthy. reflexivity.
Qed.

(** X19.  A header of one word, a token sent without a scheme word before it
    for instance, is refused with 401 and [jwt.verify] is not asked; so
    is a request without the header. *)
Theorem verifyToken_needs_two_words now header :
  no_space header = true ->
  verifyToken now (Some header) = inl (invalid_token 401) /\
  verifyToken now None = inl (invalid_token 401).
Proof.
  intros H. split; [|reflexivity].
  unfold verifyToken. destruct header as [|c header]; [reflexivity|].
  rewrite token_of_nonempty, (split_no_space _ H). reflexivity.
Qed.

End AccountsFacts.

Lemma verifyToken_reads_second_word_witness :
  no_space "Basic" = true /\ no_space ana_token = true /\ ana_token <> "" /\
  verifyToken (lib := sample_libraries) 200 (Some ("Basic" ++ " " ++ ana_token))
    = inr (mkPayload 1 "ana@mail.id" "Ana" "Putri" None) /\
  verifyToken (lib := sample_libraries) 200
    (Some ("Basic" ++ " " ++ ana_token ++ " " ++ "x y"))
    = inr (mkPayload 1 "ana@mail.id" "Ana" "Putri" None).
Proof.
  assert (Hne : ana_token <> "") by discriminate.
  split; [reflexivity|]. split; [reflexivity|]. split; [exact Hne|].
  exact (verifyToken_reads_second_word (lib := sample_libraries) 200 "Basic"
           ana_token "x y" eq_refl eq_refl Hne).
Defined.

Lemma verifyToken_needs_two_words_witness :
  no_space ana_token = true /\
  verifyToken (lib := sample_libraries) 200 (Some ana_token)
    = inl (invalid_token 401) /\
  verifyToken (lib := sample_libraries) 200 None = inl (invalid_token 401).
Proof.
  split; [reflexivity|].
  exact (verifyToken_needs_two_words (lib := sample_libraries) 200 ana_token eq_refl).
Defined.

Lemma next_user_id_fresh rows : ~ In (next_user_id rows) (map user_id rows).
Proof.
  assert (H : forall x, In x (map user_id rows) -> x < next_user_id rows).
  { unfold next_user_id.
    induction rows as [|y rows IH]; cbn [In map fold_right]; [tauto|].
    intros x [<-|Hin]; [lia|]. specialize (IH x Hin). lia. }
  intros Hin. apply H in Hin. lia.
Qed.

Lemma filter_email_none users e :
  filter (fun u => String.eqb (email u) e) users = [] -> ~ In e (map email users).
Proof.
  induction users as [|u users IH]; cbn; [tauto|].
  destruct (String.eqb_spec (email u) e) as [->|Hne]; [discriminate|].
  intros H [Heq|Hin]; [contradiction | now apply IH].
Qed.

Lemma filter_head_in {A} (f : A -> bool) rows x rest :
  filter f rows = x :: rest -> In x rows /\ f x = true.
Proof.
  intros H. apply filter_In. rewrite H. now left.
Qed.

Lemma keyed_insert users e hashed first last :
  keyed users -> ~ In e (map email users) ->
  keyed (users ++ [mkUser (next_user_id users) e hashed first last None]).
Proof.
  intros [He Hi] Hnew. unfold keyed. rewrite !map_app. cbn [map email user_id].
  split; apply NoDup_app; try assumption.
  - constructor; [intros [] | constructor].
  - intros x Hx [<-|[]]. contradiction.
  - constructor; [intros [] | constructor].
  - intros x Hx [<-|[]]. now apply next_user_id_fresh in Hx.
Qed.

Lemma keyed_rename users first last i :
  keyed users ->
  keyed (map (fun u => if user_id u =? i then set_names first last u else u) users).
Proof.
  intros [He Hi]. unfold keyed.
  rewrite !map_map_same; [split; assumption| |];
    intros x; destruct (user_id x =? i); reflexivity.
Qed.

Section AccountsRoutes.

Context {lib : Libraries}.


(** Every request keeps emails and identifiers keys of the table. *)
Lemma serve_keyed now r faults users :
  keyed users -> keyed (users_after (serve now r faults users)).
Proof.
  intros Hk. destruct r as [e p f l salt|e p|h|h f l]; cbn [serve].
  - unfold registration.
    destruct (negb (truthy e) || negb (truthy p) || negb (truthy f)
              || negb (truthy l)); [exact Hk|].
    destruct (negb (isEmail (text e))); [exact Hk|].
    destruct (String.length (text p) <? 8)%nat; [exact Hk|].
    cbn [run]. destruct (hd false faults); [exact Hk|].
    cbn [run_stmt fst snd users_after].
    destruct (filter _ users) eqn:Efilter; cbn [run users_after]; [|exact Hk].
    destruct (hd false (tl faults)); [exact Hk|].
    cbn [run_stmt fst snd users_after run].
    apply keyed_insert; [exact Hk | now apply filter_email_none].
  - unfold login.
    destruct (negb (truthy e) || negb (truthy p)); [exact Hk|].
    destruct (negb (isEmail (text e))); [exact Hk|].
    cbn [run]. destruct (hd false faults); [exact Hk|].
    cbn [run_stmt fst snd users_after].
    destruct (filter _ users) as [|u rest]; [exact Hk|].
    destruct (compare (text p) (password u)); exact Hk.
  - unfold protected. destruct (verifyToken now h) as [refusal|user]; [exact Hk|].
    unfold profile. cbn [run]. destruct (hd false faults); [exact Hk|].
    cbn [run_stmt fst snd users_after].
    destruct (filter _ users); exact Hk.
  - unfold protected. destruct (verifyToken now h) as [refusal|user]; [exact Hk|].
    unfold profile_update.
    destruct (negb (truthy f) || negb (truthy l)); [exact Hk|].
    cbn [run]. destruct (hd false faults); [exact Hk|].
    cbn [run_stmt fst snd users_after run].
    now apply keyed_rename.
Qed.

(** X21.  Served one after another, the requests never give two users the
    same email or the same identifier: [/registration] looks the email
    up before it inserts, and [/profile/update] renames in place. *)
Theorem accounts_stay_keyed requests :
  forall users, keyed users -> keyed (serve_all requests users).
Proof.
  induction requests as [|[[r now] faults] rest IH]; intros users Hk;
    cbn [serve_all]; [exact Hk|].
  apply IH. now apply serve_keyed.
Qed.

End AccountsRoutes.

Lemma accounts_stay_keyed_witness :
  let lib := sample_libraries in
  keyed [ana_row] /\
  keyed (serve_all [(ana, 50, []);
                    (PostRegistration (Some "budi@mail.id") (Some "kata-sandi")
                       (Some "Budi") (Some "Santoso") "s2", 60, [])]
           [ana_row]).
Proof.
  intros lib.
  assert (Hk : keyed [ana_row]).
  { split; repeat constructor; intros []. }
  split; [exact Hk|].
  exact (accounts_stay_keyed (lib := sample_libraries) _ [ana_row] Hk).
Defined.

Lemma filter_email_app users e u :
  filter (fun x => String.eqb (email x) e) users = [] -> email u = e ->
  filter (fun x => String.eqb (email x) e) (users ++ [u]) = [u].
Proof.
  intros H <-. rewrite filter_app, H. cbn. now rewrite String.eqb_refl.
Qed.

Lemma truthy_text x : truthy x = true -> exists c s, text x = String c s.
Proof. destruct x as [[|c s]|]; cbn; try discriminate; eauto. Qed.

Lemma filter_renamed users first last i :
  filter (fun u => user_id u =? i)
    (map (fun u => if user_id u =? i then set_names first last u else u) users)
  = map (set_names first last) (filter (fun u => user_id u =? i) users).
Proof.
  induction users as [|u users IH]; cbn [map filter]; [reflexivity|].
  destruct (user_id u =? i) eqn:E; cbn [set_names user_id]; rewrite E, IH;
    reflexivity.
Qed.

Lemma rename_nobody users first last i :
  filter (fun u => user_id u =? i) users = [] ->
  map (fun u => if user_id u =? i then set_names first last u else u) users = users.
Proof.
  induction users as [|u users IH]; cbn [map filter]; [reflexivity|].
  destruct (user_id u =? i); [discriminate|]. intros H. now rewrite IH.
Qed.

Section AccountsSessions.

Context {lib : Libraries}.

(** The outcome of a registration that is answered [registered]: the
    fields were given, and one row was appended with a fresh identifier,
    the hash of the password and no profile image. *)
Lemma registration_done e p f l salt faults users :
  response (run (registration e p f l salt) faults users) = registered ->
  truthy e = true /\ isEmail (text e) = true /\
  filter (fun u => String.eqb (email u) (text e)) users = [] /\
  users_after (run (registration e p f l salt) faults users)
  = (users ++ [mkUser (next_user_id users) (text e) (hash (text p) salt)
                 (text f) (text l) None])%list.
Proof.
  unfold registration.
  destruct (truthy e), (truthy p), (truthy f), (truthy l);
    cbn [negb orb run response]; try discriminate.
  destruct (isEmail (text e)); cbn [negb run response]; [|discriminate].
  destruct (String.length (text p) <? 8)%nat; cbn [run response]; [discriminate|].
  destruct (hd false faults); cbn [response]; [discriminate|].
  cbn [run_stmt fst snd].
  destruct (filter _ users) eqn:Efilter; cbn [run response]; [|discriminate].
  destruct (hd false (tl faults)); cbn [response run run_stmt fst snd users_after];
    [discriminate|].
  intros _. auto.
Qed.

(** X22.  After a registration that succeeded, [/login] with the same email
    checks the password given against the hash of the password
    registered: the login succeeds exactly when [bcrypt.compare]
    accepts the pair, and the token it returns is signed for the new
    identifier and the names registered; otherwise the answer is
    401. *)
Theorem login_after_registration e p f l salt faults users now p' faults' :
  let o := run (registration e p f l salt) faults users in
  response o = registered ->
  truthy p' = true -> hd false faults' = false ->
  response (run (login now e p') faults' (users_after o))
  = if compare (text p') (hash (text p) salt)
    then logged_in (sign now (mkPayload (next_user_id users) (text e)
                                (text f) (text l) None))
    else bad_credentials.
Proof.
  intros o Hreg Hp' Hf'.
  destruct (registration_done e p f l salt faults users Hreg)
    as (He & Hmail & Hnone & Hafter).
  subst o. rewrite Hafter. unfold login.
  rewrite He, Hp', Hmail. cbn [negb orb run]. rewrite Hf'.
  cbn [run_stmt fst snd].
  rewrite (filter_email_app users (text e)
             (mkUser (next_user_id users) (text e) (hash (text p) salt)
                (text f) (text l) None) Hnone eq_refl).
  cbn [password payload_of user_id email first_name last_name profile_image].
  destruct (compare (text p') (hash (text p) salt)); reflexivity.
Qed.

(** X23.  A request that is not answered 200 leaves the table as it was, and
    so do [/login] and [/profile] however they are answered. *)
Theorem unanswered_requests_change_nothing now r faults users :
  let o := serve now r faults users in
  http_status (response o) <> 200 \/
  match r with PostLogin _ _ | GetProfile _ => True | _ => False end ->
  users_after o = users.
Proof.
  intros o H. subst o.
  destruct r as [e p f l salt|e p|h|h f l]; cbn [serve] in *.
  - destruct H as [H|[]]. revert H. unfold registration.
    destruct (negb (truthy e) || negb (truthy p) || negb (truthy f)
              || negb (truthy l)); [reflexivity|].
    destruct (negb (isEmail (text e))); [reflexivity|].
    destruct (String.length (text p) <? 8)%nat; [reflexivity|].
    cbn [run]. destruct (hd false faults); [reflexivity|].
    cbn [run_stmt fst snd users_after].
    destruct (filter _ users); cbn [run users_after]; [|reflexivity].
    destruct (hd false (tl faults)); [reflexivity|].
    cbn. intros H. now contradiction H.
  - clear H. unfold login.
    destruct (negb (truthy e) || negb (truthy p)); [reflexivity|].
    destruct (negb (isEmail (text e))); [reflexivity|].
    cbn [run]. destruct (hd false faults); [reflexivity|].
    cbn [run_stmt fst snd users_after].
    destruct (filter _ users) as [|u rest]; [reflexivity|].
    destruct (compare (text p) (password u)); reflexivity.
  - clear H. unfold protected.
    destruct (verifyToken now h) as [refusal|user]; [reflexivity|].
    unfold profile. cbn [run]. destruct (hd false faults); [reflexivity|].
    cbn [run_stmt fst snd users_after].
    destruct (filter _ users); reflexivity.
  - destruct H as [H|[]]. revert H. unfold protected.
    destruct (verifyToken now h) as [refusal|user]; [reflexivity|].
    unfold profile_update.
    destruct (negb (truthy f) || negb (truthy l)); [reflexivity|].
    cbn [run]. destruct (hd false faults); [reflexivity|].
    cbn. intros H. now contradiction H.
Qed.

(** X24.  The token [/login] returns opens [/profile] for the user who logged
    in: sent as the second word of the header while [jwt.verify]
    accepts it, with identifiers a key of the table, [/profile] answers
    200 with the email, names and image of the row the login found. *)
Theorem login_token_opens_profile now later e p faults users token scheme faults' :
  NoDup (map user_id users) ->
  response (run (login now e p) faults users) = logged_in token ->
  (forall u, user_of_email users (text e) = Some u ->
             verify later (sign now (payload_of u)) = Some (payload_of u)) ->
  no_space scheme = true -> no_space token = true -> token <> "" ->
  hd false faults' = false ->
  exists u,
    user_of_email users (text e) = Some u /\
    token = sign now (payload_of u) /\
    response (protected later (Some (scheme ++ " " ++ token)) profile faults' users)
    = mkResponse 200 0 "Sukses" (profile_of u).
Proof.
  intros Hid Hlogin Hjwt Hs Ht Hne Hf'.
  revert Hlogin. unfold login.
  destruct (negb (truthy e) || negb (truthy p)); [discriminate|].
  destruct (negb (isEmail (text e))); [discriminate|].
  cbn [run]. destruct (hd false faults); [discriminate|].
  cbn [run_stmt fst snd response].
  destruct (filter _ users) as [|u rest] eqn:Efilter; [discriminate|].
  destruct (compare (text p) (password u)); [|discriminate].
  cbn [run response]. intros [= <-].
  assert (Hfind : user_of_email users (text e) = Some u).
  { unfold user_of_email. rewrite find_filter, Efilter. reflexivity. }
  exists u. split; [exact Hfind|]. split; [reflexivity|].
  destruct (filter_head_in _ _ _ _ Efilter) as [Hin _].
  unfold protected, verifyToken.
  destruct (append_space_nonempty scheme (sign now (payload_of u)))
    as (c & header & E).
  rewrite E, token_of_nonempty, <- E.
  rewrite (proj2 (split_second scheme _ Hs Ht)).
  assert (Htruthy : truthy (Some (sign now (payload_of u))) = true)
    by (destruct (sign now (payload_of u)); [contradiction|reflexivity]).
  rewrite Htruthy. cbn [negb text]. rewrite (Hjwt u Hfind).
  unfold profile. cbn [run]. rewrite Hf'. cbn [run_stmt fst snd payload_of token_id].
  destruct (filter (fun x => user_id x =? user_id u) users) as [|x more] eqn:Eid.
  - exfalso. assert (Hx : In u (filter (fun x => user_id x =? user_id u) users)).
    { apply filter_In. split; [exact Hin | apply Z.eqb_refl]. }
    rewrite Eid in Hx. exact Hx.
  - destruct (filter_head_in _ _ _ _ Eid) as [Hxin Hxid].
    apply Z.eqb_eq in Hxid.
    rewrite (nodup_map_injective user_id users x u Hid Hxin Hin Hxid).
    reflexivity.
Qed.

(** X25.  [/profile/update] renames every row of the identifier in the token
    and nothing else: each row keeps its identifier, email, password
    and image, rows of other identifiers are untouched, and a
    [/profile] read with the same token then shows the new names. *)
Theorem profile_update_then_profile user f l faults users u faults' :
  user_of_id users (token_id user) = Some u ->
  truthy f = true -> truthy l = true ->
  hd false faults = false -> hd false faults' = false ->
  let o := run (profile_update user f l) faults users in
  let shown := DataProfile (email u) (text f) (text l) (profile_image u) in
  response o = mkResponse 200 0 "Update Pofile berhasil" shown /\
  response (run (profile user) faults' (users_after o))
  = mkResponse 200 0 "Sukses" shown /\
  map (fun x => (user_id x, email x, password x, profile_image x)) (users_after o)
  = map (fun x => (user_id x, email x, password x, profile_image x)) users /\
  forall x, In x users -> user_id x <> token_id user -> In x (users_after o).
Proof.
  intros Hfind Hf Hl Hq Hq' o shown. subst o shown.
  unfold profile_update. rewrite Hf, Hl. cbn [negb orb run]. rewrite Hq.
  cbn [run_stmt fst snd run response users_after].
  apply filter_of_find in Hfind as [rest Hfilter].
  rewrite filter_renamed, Hfilter. cbn [map].
  split; [reflexivity|]. split.
  - unfold profile. cbn [run]. rewrite Hq'.
    cbn [run_stmt fst snd run response].
    rewrite filter_renamed, Hfilter. reflexivity.
  - split.
    + rewrite map_map. apply map_ext. intros x.
      destruct (user_id x =? token_id user); reflexivity.
    + intros x Hin Hne. apply in_map_iff. exists x. split; [|exact Hin].
      destruct (Z.eqb_spec (user_id x) (token_id user)); [contradiction|reflexivity].
Qed.

(** X26.  A token whose identifier has no row any more still gets 200 and
    [Update Pofile berhasil] from [/profile/update], with no [data] and
    the table unchanged, while [/profile] answers the same token with
    401 and status 204. *)
Theorem profile_update_of_missing_user user f l faults users :
  user_of_id users (token_id user) = None ->
  truthy f = true -> truthy l = true -> hd false faults = false ->
  run (profile_update user f l) faults users
  = mkOutcome users (mkResponse 200 0 "Update Pofile berhasil" DataAbsent)
      [issued (UpdateNames (text f) (text l) (token_id user))] /\
  response (run (profile user) faults users) = profile_not_found.
Proof.
  intros Hfind Hf Hl Hq.
  assert (Hnone : filter (fun x => user_id x =? token_id user) users = []).
  { unfold user_of_id in Hfind. rewrite find_filter in Hfind.
    destruct (filter _ users); [reflexivity | discriminate]. }
  unfold profile_update, profile. rewrite Hf, Hl. cbn [negb orb run].
  rewrite Hq. cbn [run_stmt fst snd run response users_after trace].
  rewrite (rename_nobody users _ _ _ Hnone), Hnone. split; reflexivity.
Qed.

End AccountsSessions.

Lemma login_after_registration_witness :
  let lib := sample_libraries in
  response (serve 50 ana [] []) = registered /\
  truthy (Some "rahasia8") = true /\ hd false [] = false /\
  response (run (login 100 (Some "ana@mail.id") (Some "rahasia8")) []
              (users_after (serve 50 ana [] [])))
  = logged_in ana_token.
Proof.
  intros lib.
  split; [reflexivity|]. split; [reflexivity|]. split; [reflexivity|].
  exact (login_after_registration (lib := sample_libraries)
           (Some "ana@mail.id") (Some "rahasia8") (Some "Ana") (Some "Putri")
           "s1" [] [] 100 (Some "rahasia8") [] eq_refl eq_refl eq_refl).
Defined.

Lemma unanswered_requests_change_nothing_witness :
  let lib := sample_libraries in
  http_status (response (serve 50 ana [false; true] [])) <> 200 /\
  users_after (serve 50 ana [false; true] []) = [].
Proof.
  intros lib.
  assert (H : http_status (response (serve 50 ana [false; true] [])) <> 200).
  { vm_compute. discriminate. }
  split; [exact H|].
  exact (unanswered_requests_change_nothing (lib := sample_libraries) 50 ana
           [false; true] [] (or_introl H)).
Defined.

Lemma login_token_opens_profile_witness :
  let lib := sample_libraries in
  NoDup (map user_id [ana_row]) /\
  response (run (login 100 (Some "ana@mail.id") (Some "rahasia8")) [] [ana_row])
    = logged_in ana_token /\
  no_space "Bearer" = true /\ no_space ana_token = true /\ ana_token <> "" /\
  exists u,
    user_of_email [ana_row] "ana@mail.id" = Some u /\
    ana_token = sign 100 (payload_of u) /\
    response (protected 200 (Some ("Bearer" ++ " " ++ ana_token)) profile [] [ana_row])
    = mkResponse 200 0 "Sukses" (profile_of u).
Proof.
  intros lib.
  assert (Hid : NoDup (map user_id [ana_row])).
  { repeat constructor. intros []. }
  assert (Hne : ana_token <> "") by discriminate.
  assert (Hjwt : forall u, user_of_email [ana_row] (text (Some "ana@mail.id")) = Some u ->
                           verify 200 (sign 100 (payload_of u)) = Some (payload_of u)).
  { intros u Hu. vm_compute in Hu. injection Hu as <-. reflexivity. }
  split; [exact Hid|]. split; [reflexivity|]. split; [reflexivity|].
  split; [reflexivity|]. split; [exact Hne|].
  exact (login_token_opens_profile (lib := sample_libraries) 100 200
           (Some "ana@mail.id") (Some "rahasia8") [] [ana_row] ana_token "Bearer" []
           Hid eq_refl Hjwt eq_refl eq_refl Hne eq_refl).
Defined.

Lemma profile_update_then_profile_witness :
  let user := mkPayload 1 "ana@mail.id" "Ana" "Putri" None in
  user_of_id [ana_row] 1 = Some ana_row /\
  let o := run (profile_update user (Some "Anna") (Some "P.")) [] [ana_row] in
  response o = mkResponse 200 0 "Update Pofile berhasil"
                 (DataProfile "ana@mail.id" "Anna" "P." None) /\
  users_after o = [mkUser 1 "ana@mail.id" "s1$rahasia8" "Anna" "P." None].
Proof.
  intros user.
  split; [reflexivity|].
  split; [|reflexivity].
  exact (proj1 (profile_update_then_profile user
                  (Some "Anna") (Some "P.") [] [ana_row] ana_row []
                  eq_refl eq_refl eq_refl eq_refl eq_refl)).
Defined.

Lemma profile_update_of_missing_user_witness :
  let user := mkPayload 9 "gone@mail.id" "G" "One" None in
  user_of_id [ana_row] 9 = None /\
  response (run (profile_update user (Some "Anna") (Some "P.")) [] [ana_row])
  = mkResponse 200 0 "Update Pofile berhasil" DataAbsent /\
  response (run (profile user) [] [ana_row]) = profile_not_found.
Proof.
  intros user.
  split; [reflexivity|].
  destruct (profile_update_of_missing_user user
              (Some "Anna") (Some "P.") [] [ana_row] eq_refl eq_refl eq_refl eq_refl)
    as [Hup Hget].
  split; [|exact Hget].
  exact (f_equal response Hup).
Defined.
